(** * cf-remote: the connection layer (cf_remote/ssh.py)

    A shallow embedding of [cf_remote/ssh.py]: the local and the remote
    connection classes, connection establishment over a list of candidate
    users, the two command dispatch functions and the copy helper.

    The operating system, the [aramid] execution engine and the other
    modules of the package the file imports are taken as a [Platform]: a
    record of transition functions over an abstract external state.  Every
    effect of the code that an observer can see (spawned processes, polls,
    signals, engine calls, prints, log lines) is recorded as an [event]. *)

From Stdlib Require Import String Ascii List ZArith Lia Bool DecimalString.
Import ListNotations.
Local Open Scope string_scope.
Local Open Scope list_scope.

(** String concatenation, written apart from the concatenation of lists. *)
Infix "+++" := String.append (right associativity, at level 60).

(** ** Python strings *)

Module PyStr.

(** A Python string is taken as the sequence of its code points, each below
    256 (the Latin-1 range, which holds ASCII). *)

Definition LF : ascii := "010"%char.
Definition CR : ascii := "013"%char.
Definition DQ : ascii := "034"%char.
Definition BS : ascii := "092"%char.
Definition SLASH : ascii := "/"%char.

Definition chr (c : ascii) : string := String c EmptyString.

(** [c in chars] for a one-character [c]. *)
Fixpoint mem (c : ascii) (chars : string) : bool :=
  match chars with
  | EmptyString => false
  | String d r => Ascii.eqb c d || mem c r
  end.

(** [str.lstrip(chars)], [str.rstrip(chars)], [str.strip(chars)]. *)
Fixpoint lstrip (chars s : string) : string :=
  match s with
  | EmptyString => EmptyString
  | String c r => if mem c chars then lstrip chars r else s
  end.

Fixpoint rstrip (chars s : string) : string :=
  match s with
  | EmptyString => EmptyString
  | String c r =>
      match rstrip chars r with
      | EmptyString => if mem c chars then EmptyString else chr c
      | t => String c t
      end
  end.

Definition strip (chars s : string) : string := rstrip chars (lstrip chars s).

(** The code points below 256 for which [str.isspace] holds: tab to carriage
    return, the four separators 28 to 31, the space, next line (133) and the
    no-break space (160); [str.strip()] without an argument removes these. *)
Definition whitespace : string :=
  String "009" (String "010" (String "011" (String "012" (String "013"
  (String "028" (String "029" (String "030" (String "031"
  (String "032" (String "133" (String "160" EmptyString))))))))))).

Definition strip_ws (s : string) : string := strip whitespace s.

(** [s.replace(old, new)]: occurrences are found left to right and do not
    overlap.  [skip] counts the characters of a match still to be dropped. *)
Fixpoint replace_from (old new : string) (skip : nat) (s : string) : string :=
  match s with
  | EmptyString => EmptyString
  | String c r =>
      match skip with
      | S k => replace_from old new k r
      | O =>
          if prefix old s
          then new +++ replace_from old new (String.length old - 1) r
          else String c (replace_from old new 0 r)
      end
  end.

Fixpoint replace_empty (new s : string) : string :=
  match s with
  | EmptyString => new
  | String c r => new +++ String c (replace_empty new r)
  end.

Definition replace (old new s : string) : string :=
  match old with
  | EmptyString => replace_empty new s
  | _ => replace_from old new 0 s
  end.

(** The translation of line ends that text mode applies to what is read from
    a pipe ([universal_newlines=True]): CR LF and a CR alone both become
    LF. *)
Fixpoint universal_newlines (s : string) : string :=
  match s with
  | EmptyString => EmptyString
  | String a t =>
      if Ascii.eqb a CR then
        match t with
        | EmptyString => String LF EmptyString
        | String b r =>
            if Ascii.eqb b LF then String LF (universal_newlines r)
            else String LF (universal_newlines t)
        end
      else String a (universal_newlines t)
  end.

(** [os.path.basename]: what follows the last slash. *)
Fixpoint basename (p : string) : string :=
  match p with
  | EmptyString => EmptyString
  | String c r => if mem SLASH r then basename r
                  else if Ascii.eqb c SLASH then r else p
  end.

(** [os.path.join(a, b)] on a POSIX system. *)
Definition ends_with_slash (a : string) : bool :=
  match String.length a with
  | O => false
  | S n => match get n a with
           | Some c => Ascii.eqb c SLASH
           | None => false
           end
  end.

Definition join (a b : string) : string :=
  if prefix (chr SLASH) b then b
  else if (String.length a =? 0)%nat || ends_with_slash a then a +++ b
  else a +++ chr SLASH +++ b.

(** The values the code hands to the [%] operator. *)
Inductive pyval : Type :=
| VStr (s : string)
| VInt (z : Z)
| VNone.

Definition str_of_Z (z : Z) : string := NilZero.string_of_int (Z.to_int z).

Definition str (v : pyval) : string :=
  match v with
  | VStr s => s
  | VInt z => str_of_Z z
  | VNone => "None"
  end.

Definition opt_str (o : option string) : pyval :=
  match o with
  | Some s => VStr s
  | None => VNone
  end.

(** [fmt % args] for the conversions the source uses ([%s], [%d] and the
    literal [%%]).  Each format string of the source is applied to as many
    values as it has conversions, and [%d] only to integers, so the
    [TypeError] Python raises otherwise is never reached. *)
Fixpoint pyformat (fmt : string) (args : list pyval) : string :=
  match fmt with
  | EmptyString => EmptyString
  | String c t =>
      if Ascii.eqb c "%" then
        match t with
        | EmptyString => chr c
        | String d rest =>
            if Ascii.eqb d "s" || Ascii.eqb d "d" then
              match args with
              | a :: args' => str a +++ pyformat rest args'
              | [] => pyformat rest []
              end
            else if Ascii.eqb d "%" then String d (pyformat rest args)
            else String c (String d (pyformat rest args))
        end
      else String c (pyformat t args)
  end.

(** [" ".join(l)]. *)
Fixpoint join_with (sep : string) (l : list string) : string :=
  match l with
  | [] => EmptyString
  | [x] => x
  | x :: r => x +++ sep +++ join_with sep r
  end.

(** Truthiness of a string and of an optional value. *)
Definition nonempty (s : string) : bool :=
  match s with
  | EmptyString => false
  | _ => true
  end.

End PyStr.

Import PyStr.

(** ** The collaborators: [aramid], [subprocess] and the operating system *)

Module aramid.

(** Modelled from the spec: [aramid._DEFAULT_SSH_PORT] is not part of the
    file; the spec gives the transport's standard port as 22. *)
Definition _DEFAULT_SSH_PORT : Z := 22.

(** Modelled from the spec: the class [aramid.ExecutionResult] is not part
    of the file; the spec describes it as pure data, a record of command,
    return code and the two captured streams, built by
    [ExecutionResult(command, retcode, stdout, stderr)] with no behaviour
    beyond construction and field access.  Either stream may be [None]:
    the dispatch functions test for it. *)
Record ExecutionResult : Type := {
  command : string;
  retcode : Z;
  stdout : option string;
  stderr : option string
}.

(** Modelled from the spec: the result of a transfer; the file reads only
    its [retcode]. *)
Record TransferResult : Type := { put_retcode : Z }.

(** Modelled from the spec: [aramid.Host(host_name, user, port,
    extra_ssh_args)], a handle carrying host, user, port and the extra
    transport arguments; the last one is optional and [None] when the
    caller leaves it out. *)
Record Host : Type := {
  host_name : option string;
  user : string;
  port : Z;
  extra_ssh_args : option (list string)
}.

Definition Host_eq_dec (a b : Host) : {a = b} + {a <> b}.
Proof.
  decide equality;
    auto using Z.eq_dec, string_dec, list_eq_dec;
    decide equality; auto using string_dec, list_eq_dec.
Defined.

End aramid.

Import aramid.

(** Exceptions the code raises or lets through. *)
Inductive exn : Type :=
| ExecutionError              (* aramid.ExecutionError *)
| SystemExit (msg : string)   (* sys.exit(msg) *)
| AssertionError
| AttributeError
| KeyError
| IndexError
| ValueError
| OSError.

Inductive level : Type := DEBUG | ERROR.

(** A log line.  [TextOf fmt users] stands for [fmt % users] where [users] is
    the list (or [None]) given to [connect]: its rendering is Python's [repr]
    of a list, which is left unevaluated. *)
Inductive logmsg : Type :=
| Text (s : string)
| TextOf (fmt : string) (users : option (list string)).

Inductive signal : Type := SIGTERM | SIGKILL.

(** Where [subprocess.run] sends a stream of the child. *)
Inductive redirect : Type := INHERIT | PIPE | STDOUT.

Record CompletedProcess : Type := {
  returncode : Z;
  cp_stdout : option string;
  cp_stderr : option string
}.

(** The result of [urlparse]: the three attributes [connect] reads. *)
Record ParseResult : Type := {
  hostname : option string;
  username : option string;
  url_port : option Z
}.

(** What an observer of the process sees. *)
Inductive event : Type :=
| EPopen (args : list string)
| EPoll (pid : nat)
| ESignal (pid : nat) (sig : signal)
| EExecute (hosts : list Host) (cmd : string) (echo : bool)
| EPut (hosts : list Host) (src dst : string) (echo : bool)
| EShell (cmd cwd : string)
| ECopy (src dst : string)
| EPrint (s : string)
| ELog (lvl : level) (m : logmsg).

(** The environment of the module.  [Ext] is the state of everything outside
    it: the process table, the network, the file system, the remote hosts.
    Each field is one capability the source calls. *)
Class Platform : Type := {
  Ext : Type;
(** [aramid.DEFAULT_SSH_ARGS], [aramid.execute], [aramid.put]. *)
DEFAULT_SSH_ARGS : list string;
engine_execute : list Host -> string -> bool -> Ext ->
                 (exn + list (Host * list ExecutionResult)) * Ext;
engine_put : list Host -> string -> string -> bool -> Ext ->
             (exn + list (Host * list TransferResult)) * Ext;
(** [paths.cf_remote_dir()] and [utils.whoami()]. *)
cf_remote_dir : Ext -> string;
whoami : Ext -> string;
(** [urlparse(url)] followed by the reads of [hostname], [username] and
    [port]; a malformed authority or port raises [ValueError]. *)
urlparse : string -> exn + ParseResult;
(** [subprocess.Popen(args)], [Popen.poll()], [Popen.send_signal(sig)]. *)
popen : list string -> Ext -> (exn + nat) * Ext;
proc_poll : nat -> Ext -> option Z * Ext;
proc_signal : nat -> signal -> Ext -> (exn + unit) * Ext;
(** The child of [subprocess.run(command, shell=True, cwd=cwd)]: its return
    code and the text it wrote to the stdout and stderr pipes, decoded and
    with its line ends as written; the boolean tells whether stderr was
    redirected into stdout. *)
run_shell : string -> string -> bool -> Ext -> (exn + (Z * string * string)) * Ext;
(** [os.environ], [os.path.expanduser], [os.path.abspath],
    [pwd.getpwuid(os.getuid()).pw_name], [shutil.copy]. *)
environ : string -> Ext -> option string;
expanduser : string -> Ext -> string;
abspath : string -> Ext -> string;
pw_name : Ext -> string;
shutil_copy : string -> string -> Ext -> (exn + unit) * Ext
}.

(** ** The monad of the model: external state, exceptions and events *)

Section Monad.
Context {P : Platform}.

Record Res (A : Type) : Type := mkRes {
  outcome : exn + A;
  final : Ext;
  events : list event
}.
Arguments mkRes {A}.
Arguments outcome {A}.
Arguments final {A}.
Arguments events {A}.

Definition M (A : Type) : Type := Ext -> Res A.

Definition ret {A} (a : A) : M A := fun e => mkRes (inr a) e [].

Definition raise {A} (x : exn) : M A := fun e => mkRes (inl x) e [].

Definition bind {A B} (m : M A) (k : A -> M B) : M B :=
  fun e =>
    let r := m e in
    match outcome r with
    | inl x => mkRes (inl x) (final r) (events r)
    | inr a =>
        let r' := k a (final r) in
        mkRes (outcome r') (final r') (events r ++ events r')
    end.

(** [try: m except x: h]: the handler runs in the state the body left. *)
Definition try_except {A} (m : M A) (catches : exn -> bool) (h : M A) : M A :=
  fun e =>
    let r := m e in
    match outcome r with
    | inl x =>
        if catches x then
          let r' := h (final r) in
          mkRes (outcome r') (final r') (events r ++ events r')
        else r
    | inr _ => r
    end.

Definition emit (ev : event) : M unit := fun e => mkRes (inr tt) e [ev].

(** A call into the platform that may raise and may change the world. *)
Definition call {A} (f : Ext -> (exn + A) * Ext) : M A :=
  fun e => let '(o, e') := f e in mkRes o e' [].

(** A read of the platform. *)
Definition read {A} (f : Ext -> A) : M A := fun e => mkRes (inr (f e)) e [].

Definition of_sum {A} (o : exn + A) : M A := fun e => mkRes o e [].

Definition of_option {A} (x : exn) (o : option A) : M A :=
  match o with
  | Some a => ret a
  | None => raise x
  end.

End Monad.

Arguments mkRes {P A}.
Arguments outcome {P A}.
Arguments final {P A}.
Arguments events {P A}.

Declare Scope py_scope.
Delimit Scope py_scope with py.
Notation "x <- m ;; k" := (bind m (fun x => k))
  (at level 100, m at next level, right associativity) : py_scope.
Notation "m ;; k" := (bind m (fun _ => k))
  (at level 100, right associativity) : py_scope.
Local Open Scope py_scope.

Definition is_ExecutionError (x : exn) : bool :=
  match x with
  | ExecutionError => true
  | _ => false
  end.

Definition is_SystemExit (x : exn) : bool :=
  match x with
  | SystemExit _ => true
  | _ => false
  end.

(** ** Library calls, each leaving its event *)

Section Library.
Context {P : Platform}.

Definition log_debug (m : logmsg) : M unit := emit (ELog DEBUG m).
Definition log_error (m : logmsg) : M unit := emit (ELog ERROR m).
Definition print (s : string) : M unit := emit (EPrint s).

(** [sys.exit(msg)] raises [SystemExit]. *)
Definition sys_exit {A} (msg : string) : M A := raise (SystemExit msg).

(** [os.environ[name]] and [os.getenv(name)]. *)
Definition environ_item (name : string) : M string :=
  v <- read (environ name) ;; of_option KeyError v.
Definition getenv (name : string) : M (option string) := read (environ name).

Definition Popen (args : list string) : M nat :=
  emit (EPopen args) ;; call (popen args).

Definition poll (pid : nat) : M (option Z) :=
  emit (EPoll pid) ;; call (fun e => let '(st, e') := proc_poll pid e in (inr st, e')).

Definition send_signal (pid : nat) (sig : signal) : M unit :=
  emit (ESignal pid sig) ;; call (proc_signal pid sig).

(** [subprocess.run(command, stdout=.., stderr=.., shell=True,
    universal_newlines=True, cwd=..)].  A stream is captured, and its
    attribute of the result a string, only when it is sent to [PIPE];
    otherwise the attribute is [None].  A captured stream is read in text
    mode, which translates its line ends. *)
Definition subprocess_run (command : string) (stdout_to stderr_to : redirect)
    (cwd : string) : M CompletedProcess :=
  emit (EShell command cwd) ;;
  r <- call (run_shell command cwd
               match stderr_to with STDOUT => true | _ => false end) ;;
  let '(rc, out, err) := r in
  ret {| returncode := rc;
         cp_stdout := match stdout_to with
                      | PIPE => Some (universal_newlines out)
                      | _ => None
                      end;
         cp_stderr := match stderr_to with
                      | PIPE => Some (universal_newlines err)
                      | _ => None
                      end |}.

Definition copy (src dst : string) : M unit :=
  emit (ECopy src dst) ;; call (shutil_copy src dst).

(** [results[ahost]] on the dictionary an engine call returns. *)
Fixpoint dict_get {V} (d : list (Host * V)) (k : Host) : option V :=
  match d with
  | [] => None
  | (k', v) :: r => if Host_eq_dec k' k then Some v else dict_get r k
  end.

(** [results[ahost][0]] on the answer of the engine: its exception if it
    raised, else the first result listed for the host. *)
Definition first_result (o : exn + list (Host * list ExecutionResult))
    (h : Host) : exn + ExecutionResult :=
  match o with
  | inl x => inl x
  | inr res =>
      match dict_get res h with
      | None => inl KeyError
      | Some l =>
          match nth_error l 0 with
          | None => inl IndexError
          | Some r => inr r
          end
      end
  end.

Definition aramid_execute (hosts : list Host) (cmd : string) (echo : bool)
  : M (list (Host * list ExecutionResult)) :=
  emit (EExecute hosts cmd echo) ;; call (engine_execute hosts cmd echo).

Definition aramid_put (hosts : list Host) (src dst : string) (echo : bool)
  : M (list (Host * list TransferResult)) :=
  emit (EPut hosts src dst echo) ;; call (engine_put hosts src dst echo).

End Library.

(** ** class LocalConnection *)

Module LocalConnection.
Section WithPlatform.
Context {P : Platform}.

(** [is_local = True] and [ssh_host = "localhost"] are class constants. *)
Record t : Type := {
  ssh_user : string;
  needs_sudo : bool
}.

Definition is_local : bool := true.
Definition ssh_host : string := "localhost".

Definition run (command : string) (hide : bool) : M ExecutionResult :=
  home <- environ_item "HOME" ;;
  result <- subprocess_run command PIPE STDOUT home ;;
  let r := {| command := command;
              retcode := returncode result;
              stdout := cp_stdout result;
              stderr := cp_stderr result |} in
  ret r.

(** [run] reads no attribute of [self], so the constructor can call it
    before [needs_sudo] is set. *)
Definition __init__ : M t :=
  name <- read pw_name ;;
  r <- run "echo $UID" true ;;
  out <- of_option AttributeError (stdout r) ;;
  ret {| ssh_user := name; needs_sudo := negb (strip_ws out =? "0")%string |}.

Definition put (src : string) (hide : bool) : M unit :=
  home <- environ_item "HOME" ;;
  let dst := join home (basename src) in
  src <- read (abspath src) ;;
  if negb (src =? dst)%string then
    (if negb hide
     then print (pyformat "Local copy: '%s' -> '%s'" [VStr src; VStr dst])
     else ret tt) ;;
    copy src dst
  else ret tt.

End WithPlatform.
End LocalConnection.

(** ** class Connection *)

Module Connection.
Section WithPlatform.
Context {P : Platform}.

Record t : Type := {
  ssh_host : option string;
  ssh_port : Z;
  ssh_user : string;
  _connect_kwargs : option (list (string * string));
  _control_path : string;
  _ssh_control_master : option nat;
  needs_sudo : bool
}.

(** [key in d] and [d[key]] on a dictionary with string keys. *)
Fixpoint kwargs_get (d : list (string * string)) (key : string) : option string :=
  match d with
  | [] => None
  | (k, v) :: r => if (k =? key)%string then Some v else kwargs_get r key
  end.

(** Lines 94 to 96 of [run]: the identity file arguments. *)
Definition key_args (self : t) : list string :=
  match _connect_kwargs self with
  | Some ((_ :: _) as d) =>
      match kwargs_get d "key_filename" with
      | Some f => ["-i"; f]
      | None => []
      end
  | _ => []
  end.

Definition control_path_arg (self : t) : string :=
  pyformat "-oControlPath=%s" [VStr (_control_path self)].

Definition run (self : t) (command : string) (hide : bool) : M ExecutionResult :=
  let extra_ssh_args := key_args self in
  master <- of_option AttributeError (_ssh_control_master self) ;;
  st <- poll master ;;
  extra_ssh_args <-
    match st with
    | None =>
        log_debug (Text "Control Master is running, using it") ;;
        ret (extra_ssh_args ++ [control_path_arg self])
    | Some _ => ret extra_ssh_args
    end ;;
  let ahost := {| host_name := ssh_host self; user := ssh_user self;
                  port := ssh_port self;
                  extra_ssh_args := Some extra_ssh_args |} in
  results <- aramid_execute [ahost] command (negb hide) ;;
  l <- of_option KeyError (dict_get results ahost) ;;
  of_option IndexError (nth_error l 0).

Definition put (self : t) (src : string) (hide : bool) : M Z :=
  let dst := basename src in
  let ahost := {| host_name := ssh_host self; user := ssh_user self;
                  port := ssh_port self;
                  extra_ssh_args := None |} in
  results <- aramid_put [ahost] src dst (negb hide) ;;
  l <- of_option KeyError (dict_get results ahost) ;;
  r <- of_option IndexError (nth_error l 0) ;;
  ret (put_retcode r).

(** The arguments of the control master process, lines 64 to 72. *)
Definition control_master_args (host : option string) (user : string)
    (port : Z) (control_path : string) : list string :=
  ["ssh"; "-M"; "-N";
   pyformat "-p %s" [VInt port];
   pyformat "-oControlPath=%s" [VStr control_path]]
  ++ DEFAULT_SSH_ARGS
  ++ [pyformat "%s@%s" [VStr user; opt_str host]].

(** [run] does not read [needs_sudo]; the constructor calls it on the
    object whose [needs_sudo] is still to be assigned, given here as
    [false] until then. *)
Definition __init__ (host : option string) (user : string)
    (connect_kwargs : option (list (string * string))) (port : Z) : M t :=
  log_debug (Text (pyformat "Initializing Connection: host '%s' user '%s' port '%s'"
                     [opt_str host; VStr user; VInt port])) ;;
  dir <- read cf_remote_dir ;;
  let control_path := join dir "%C" in
  let args := control_master_args host user port control_path in
  log_debug (Text (pyformat
                     "Attempting to open SSH Control Master process with command: %s"
                     [VStr (join_with " " args)])) ;;
  master <- Popen args ;;
  let self := {| ssh_host := host; ssh_port := port; ssh_user := user;
                 _connect_kwargs := connect_kwargs;
                 _control_path := control_path;
                 _ssh_control_master := Some master;
                 needs_sudo := false |} in
  r <- run self "echo $UID" true ;;
  out <- of_option AttributeError (stdout r) ;;
  let self := {| ssh_host := host; ssh_port := port; ssh_user := user;
                 _connect_kwargs := connect_kwargs;
                 _control_path := control_path;
                 _ssh_control_master := Some master;
                 needs_sudo := negb (strip_ws out =? "0")%string |} in
  log_debug (Text "Connection initialized") ;;
  ret self.

(** The finaliser.  Python calls it when the object is collected; no
    statement of the file calls it. *)
Definition __del__ (self : t) : M unit :=
  match _ssh_control_master self with
  | Some master =>
      st <- poll master ;;
      match st with
      | None => send_signal master SIGTERM
      | Some _ => ret tt
      end
  | None => ret tt
  end.

Definition __enter__ (self : t) : M t := ret self.

(** The body is [pass]: the method returns [None]. *)
Definition __exit__ (self : t) : M unit := ret tt.

(** [with mgr as x: body].  [__exit__] runs when the body ends and when it
    raises; it returns [None], which is false, so an exception of the body
    is raised again after it. *)
Definition with_ {A} (mgr : t) (body : t -> M A) : M A :=
  x <- __enter__ mgr ;;
  fun e =>
    let r := body x e in
    let r' := __exit__ mgr (final r) in
    match outcome r' with
    | inl err => mkRes (inl err) (final r') (events r ++ events r')
    | inr _ => mkRes (outcome r) (final r') (events r ++ events r')
    end.

End WithPlatform.
End Connection.

(** A connection as the functions below receive it: the file relies on the
    two classes having the same methods. *)
Inductive connection : Type :=
| Local (c : LocalConnection.t)
| Remote (c : Connection.t).

Section Functions.
Context {P : Platform}.

Definition connection_run (c : connection) (command : string) (hide : bool)
  : M ExecutionResult :=
  match c with
  | Local _ => LocalConnection.run command hide
  | Remote r => Connection.run r command hide
  end.

(** The value [put] returns is not used by any caller in the file. *)
Definition connection_put (c : connection) (src : string) (hide : bool) : M unit :=
  match c with
  | Local _ => LocalConnection.put src hide
  | Remote r => Connection.put r src hide ;; ret tt
  end.

Definition connection_needs_sudo (c : connection) : bool :=
  match c with
  | Local l => LocalConnection.needs_sudo l
  | Remote r => Connection.needs_sudo r
  end.

(** *** connect *)

Definition fallback_users : list string :=
  ["Administrator"; "admin"; "ubuntu"; "ec2-user"; "centos"; "vagrant"; "root"].

(** [x in l] on a list of strings. *)
Definition str_in (x : string) (l : list string) : bool :=
  existsb (String.eqb x) l.

(** Truthiness of [users]: [None] and the empty list are false. *)
Definition users_given (users : option (list string)) : bool :=
  match users with
  | Some (_ :: _) => true
  | _ => false
  end.

(** Truthiness of [parts.username]. *)
Definition username_given (u : option string) : bool :=
  match u with
  | Some s => nonempty s
  | None => false
  end.

(** Lines 126 to 142: the list of users the loop goes through. *)
Definition candidate_users (users : option (list string)) (parts : ParseResult)
  : M (list string) :=
  let users :=
    if negb (users_given users) && username_given (username parts)
    then match username parts with
         | Some u => Some [u]
         | None => users
         end
    else users in
  match users with
  | Some ((_ :: _) as l) => ret l
  | _ =>
      let users := fallback_users in
      me <- read whoami ;;
      if negb (str_in me users)
      then me' <- read whoami ;; ret ([me'] ++ users)
      else ret users
  end.

(** [parts.port or aramid._DEFAULT_SSH_PORT]: a port 0 is false. *)
Definition port_or_default (p : option Z) : Z :=
  match p with
  | Some z => if (z =? 0)%Z then _DEFAULT_SSH_PORT else z
  | None => _DEFAULT_SSH_PORT
  end.

(** Lines 145 to 157: the body of the [try] for one user. *)
Definition attempt (host : option string) (port : Z) (user : string)
  : M Connection.t :=
  log_debug (Text (pyformat "Attempting ssh: %s@%s:%s"
                     [VStr user; opt_str host; VInt port])) ;;
  key <- getenv "CF_REMOTE_SSH_KEY" ;;
  connect_kwargs <-
    match key with
    | Some k =>
        if nonempty k
        then path <- read (expanduser k) ;; ret [("key_filename", path)]
        else ret []
    | None => ret []
    end ;;
  c <- Connection.__init__ host user (Some connect_kwargs) port ;;
  let c := {| Connection.ssh_host := host;
              Connection.ssh_port := port;
              Connection.ssh_user := user;
              Connection._connect_kwargs := Connection._connect_kwargs c;
              Connection._control_path := Connection._control_path c;
              Connection._ssh_control_master := Connection._ssh_control_master c;
              Connection.needs_sudo := Connection.needs_sudo c |} in
  Connection.run c "whoami" true ;;
  ret c.

(** Lines 143 to 160: the loop and the exit after it. *)
Fixpoint connect_loop (host : option string) (port : Z) (users : list string)
  : M Connection.t :=
  match users with
  | [] => sys_exit (pyformat "Could not ssh into '%s'" [opt_str host])
  | user :: rest =>
      try_except (attempt host port user) is_ExecutionError
                 (connect_loop host port rest)
  end.

Definition connect (host : string) (users : option (list string))
  : M Connection.t :=
  log_debug (Text (pyformat "Connecting to '%s'" [VStr host])) ;;
  log_debug (TextOf "users= '%s'" users) ;;
  parts <- of_sum (urlparse (pyformat "ssh://%s" [VStr host])) ;;
  let host := hostname parts in
  let port := port_or_default (url_port parts) in
  users <- candidate_users users parts ;;
  connect_loop host port users.

(** *** ssh_cmd and ssh_sudo *)

Definition or_empty (o : option string) : string :=
  match o with
  | Some s => s
  | None => EmptyString
  end.

(** Lines 208 to 218 and 234 to 244: what both functions do with a result
    whose return code is not 0. *)
Definition report_failure (fmt cmd : string) (result : ExecutionResult)
    (errors : bool) : M (option string) :=
  let msg := pyformat fmt [VStr cmd; VInt (retcode result)] in
  (if errors then
     print (or_empty (stdout result)) ;;
     print (or_empty (stderr result)) ;;
     log_error (Text msg)
   else
     log_debug (Text (or_empty (stdout result))) ;;
     log_debug (Text (or_empty (stderr result))) ;;
     log_debug (Text msg)) ;;
  ret None.

Definition ssh_cmd (connection : option connection) (cmd : string)
    (errors : bool) : M (option string) :=
  connection <- of_option AssertionError connection ;;
  result <- connection_run connection cmd true ;;
  if (retcode result =? 0)%Z then
    out <- of_option AttributeError (stdout result) ;;
    let output := strip (chr LF) (replace (String CR (chr LF)) (chr LF) out) in
    log_debug (Text (pyformat "'%s' -> '%s'" [VStr cmd; VStr output])) ;;
    ret (Some output)
  else
    report_failure "Non-sudo command unexpectedly exited: '%s' [%d]"
                   cmd result errors.

Definition sudo_format : string :=
  "sudo bash -c " +++ chr DQ +++ "%s" +++ chr DQ.

Definition ssh_sudo (connection : option connection) (cmd : string)
    (errors : bool) : M (option string) :=
  connection <- of_option AssertionError connection ;;
  result <-
    (if connection_needs_sudo connection then
       let escaped := replace (chr DQ) (String BS (chr DQ)) cmd in
       let sudo_cmd := pyformat sudo_format [VStr escaped] in
       connection_run connection sudo_cmd true
     else connection_run connection cmd true) ;;
  if (retcode result =? 0)%Z then
    out <- of_option AttributeError (stdout result) ;;
    let output := strip (chr LF) out in
    log_debug (Text (pyformat "'%s' -> '%s'" [VStr cmd; VStr output])) ;;
    ret (Some output)
  else
    report_failure "Sudo command unexpectedly exited: '%s' [%d]"
                   cmd result errors.

(** *** scp *)

(** Truthiness of [rename]. *)
Definition rename_given (rename : option string) : option string :=
  match rename with
  | Some r => if nonempty r then Some r else None
  | None => None
  end.

(** The [else] branch of [scp], lines 187 to 197. *)
Definition scp_on (file remote : string) (connection : connection)
    (rename : option string) (hide : bool) : M Z :=
  (if negb hide
   then print (pyformat "Copying: '%s' to '%s'" [VStr file; VStr remote])
   else ret tt) ;;
  connection_put connection file hide ;;
  match rename_given rename with
  | Some rename =>
      let file := basename file in
      if (file =? rename)%string then ret 0%Z
      else
        (if negb hide
         then print (pyformat "Renaming '%s' -> '%s' on '%s'"
                       [VStr file; VStr rename; VStr remote])
         else ret tt) ;;
        ssh_cmd (Some connection) (pyformat "mv %s %s" [VStr file; VStr rename]) false ;;
        ret 0%Z
  | None => ret 0%Z
  end.

(** [scp] calls itself once, with the connection it has just made, and that
    call takes the [else] branch: a connection object is true. *)
Definition scp (file remote : string) (connection : option connection)
    (rename : option string) (hide : bool) : M Z :=
  match connection with
  | None =>
      c <- connect remote None ;;
      Connection.with_ c (fun connection =>
        scp_on file remote (Remote connection) rename hide) ;;
      ret 0%Z
  | Some c => scp_on file remote c rename hide
  end.

(** *** auto_connect *)


End Functions.

(** ** Observations on a run *)

(** The target, last argument of its command line, of each process spawned. *)
Definition spawn_target (ev : event) : list string :=
  match ev with
  | EPopen args => [last args EmptyString]
  | _ => []
  end.

Definition spawn_targets (evs : list event) : list string :=
  flat_map spawn_target evs.

(** The commands handed to the engine or to the local shell, in order. *)
Definition command_of (ev : event) : list string :=
  match ev with
  | EExecute _ cmd _ => [cmd]
  | EShell cmd _ => [cmd]
  | _ => []
  end.

Definition commands_run (evs : list event) : list string :=
  flat_map command_of evs.




(** The signals sent. *)
Definition signal_of (ev : event) : list (nat * signal) :=
  match ev with
  | ESignal pid sig => [(pid, sig)]
  | _ => []
  end.

Definition signals_sent (evs : list event) : list (nat * signal) :=
  flat_map signal_of evs.

(** The host handles given to the engine for a transfer or for a command. *)
Definition put_hosts (ev : event) : list Host :=
  match ev with
  | EPut hosts _ _ _ => hosts
  | _ => []
  end.

Definition is_poll (ev : event) : bool :=
  match ev with
  | EPoll _ => true
  | _ => false
  end.

Section Attempts.
Context {P : Platform}.

(** The attempts for the users of [pre], made one after the other from the
    state [e], each end with [aramid.ExecutionError]; the result is the
    state they leave and the events they produce. *)
Fixpoint failed_attempts (host : option string) (port : Z) (pre : list string)
    (e : Ext) : option (Ext * list event) :=
  match pre with
  | [] => Some (e, [])
  | u :: rest =>
      let a := attempt host port u e in
      match outcome a with
      | inl ExecutionError =>
          match failed_attempts host port rest (final a) with
          | Some (e', evs) => Some (e', events a ++ evs)
          | None => None
          end
      | _ => None
      end
  end.

(** The keyword arguments [connect] builds for a connection, lines 146 to
    149, as a function of the environment. *)
Definition kwargs_of (e : Ext) : list (string * string) :=
  match environ "CF_REMOTE_SSH_KEY" e with
  | Some k => if nonempty k then [("key_filename", expanduser k e)] else []
  | None => []
  end.

Definition target_of (host : option string) (user : string) : string :=
  user +++ "@" +++ str (opt_str host).

(** No capability of the platform raises [SystemExit]. *)
Definition never_exits {A} (f : Ext -> (exn + A) * Ext) : Prop :=
  forall e msg, fst (f e) <> inl (SystemExit msg).

Record platform_never_exits : Prop := {
  ne_execute : forall hs c b, never_exits (engine_execute hs c b);
  ne_put : forall hs s d b, never_exits (engine_put hs s d b);
  ne_popen : forall args, never_exits (popen args);
  ne_signal : forall pid sig, never_exits (proc_signal pid sig);
  ne_shell : forall c d b, never_exits (run_shell c d b);
  ne_copy : forall s d, never_exits (shutil_copy s d);
  ne_urlparse : forall url msg, urlparse url <> inl (SystemExit msg)
}.

(** A computation in whose events the projection [f] sees nothing. *)
Definition silent {A X} (f : event -> list X) (m : M A) : Prop :=
  forall e, flat_map f (events (m e)) = [].

(** A computation that does not end the process. *)
Definition returns_or_raises {A} (m : M A) : Prop :=
  forall e msg, outcome (m e) <> inl (SystemExit msg).

End Attempts.

(** ** The wording of the specification *)

Module Spec.

(** Every CRLF replaced by LF. *)
Fixpoint crlf_to_lf (s : string) : string :=
  match s with
  | EmptyString => EmptyString
  | String a t =>
      match t with
      | EmptyString => s
      | String b r =>
          if Ascii.eqb a CR && Ascii.eqb b LF
          then String LF (crlf_to_lf r)
          else String a (crlf_to_lf t)
      end
  end.

Fixpoint all_newlines (s : string) : bool :=
  match s with
  | EmptyString => true
  | String c r => Ascii.eqb c LF && all_newlines r
  end.

(** Trailing newlines stripped. *)
Fixpoint strip_trailing_newlines (s : string) : string :=
  match s with
  | EmptyString => EmptyString
  | String c r =>
      if all_newlines s then EmptyString
      else String c (strip_trailing_newlines r)
  end.

(** Leading newlines stripped. *)
Fixpoint strip_leading_newlines (s : string) : string :=
  match s with
  | EmptyString => EmptyString
  | String c r => if Ascii.eqb c LF then strip_leading_newlines r else s
  end.

(** Embedded double quotes escaped with a backslash. *)
Fixpoint escape_double_quotes (s : string) : string :=
  match s with
  | EmptyString => EmptyString
  | String c r =>
      if Ascii.eqb c DQ
      then String BS (String DQ (escape_double_quotes r))
      else String c (escape_double_quotes r)
  end.

(** The command wrapped for elevation. *)
Definition sudo_wrap (cmd : string) : string :=
  "sudo bash -c " +++ chr DQ +++ escape_double_quotes cmd +++ chr DQ.

(** The fixed fallback order. *)
Definition fallback_order : list string :=
  ["Administrator"; "admin"; "ubuntu"; "ec2-user"; "centos"; "vagrant"; "root"].

End Spec.

(** ** A concrete platform

    One remote host that lets in the users of [accepted]; the engine answers
    a command from the table [replies].  Used to run the model on concrete
    inputs. *)

Module Scenario.

Record world : Type := {
  accepted : list string;
  me : string;
  key : option string;
  running : list nat;
  spawned : nat;
  replies : list (string * ExecutionResult);
  transfer_code : Z
}.

Definition reply (w : world) (cmd : string) : ExecutionResult :=
  match find (fun p => (fst p =? cmd)%string) (replies w) with
  | Some (_, r) => r
  | None => {| command := cmd; retcode := 0;
               stdout := Some ("1000" +++ chr LF); stderr := Some EmptyString |}
  end.

Definition execute (hosts : list Host) (cmd : string) (echo : bool) (w : world)
  : (exn + list (Host * list ExecutionResult)) * world :=
  if forallb (fun h => existsb (String.eqb (user h)) (accepted w)) hosts
  then (inr (map (fun h => (h, [reply w cmd])) hosts), w)
  else (inl ExecutionError, w).

Definition transfer (hosts : list Host) (src dst : string) (echo : bool) (w : world)
  : (exn + list (Host * list TransferResult)) * world :=
  (inr (map (fun h => (h, [{| put_retcode := transfer_code w |}])) hosts), w).

Definition spawn (args : list string) (w : world) : (exn + nat) * world :=
  (inr (spawned w),
   {| accepted := accepted w; me := me w; key := key w;
      running := spawned w :: running w; spawned := S (spawned w);
      replies := replies w; transfer_code := transfer_code w |}).

Definition status (pid : nat) (w : world) : option Z * world :=
  (if existsb (Nat.eqb pid) (running w) then None else Some 255%Z, w).

Definition kill (pid : nat) (sig : signal) (w : world) : (exn + unit) * world :=
  (inr tt,
   {| accepted := accepted w; me := me w; key := key w;
      running := filter (fun p => negb (Nat.eqb p pid)) (running w);
      spawned := spawned w;
      replies := replies w; transfer_code := transfer_code w |}).

Definition shell (cmd cwd : string) (merged : bool) (w : world)
  : (exn + (Z * string * string)) * world :=
  let r := reply w cmd in
  (inr (retcode r,
        match stdout r with Some s => s | None => EmptyString end,
        EmptyString), w).

Definition home (w : world) : string := "/home/" +++ me w.

Definition env (name : string) (w : world) : option string :=
  if (name =? "HOME")%string then Some (home w)
  else if (name =? "CF_REMOTE_SSH_KEY")%string then key w
  else None.

(** [s.partition(sep)] and [s.rpartition(sep)] when the separator occurs. *)
Fixpoint partition (sep : ascii) (s : string) : option (string * string) :=
  match s with
  | EmptyString => None
  | String c r =>
      if Ascii.eqb c sep then Some (EmptyString, r)
      else match partition sep r with
           | Some (a, b) => Some (String c a, b)
           | None => None
           end
  end.

Fixpoint rpartition (sep : ascii) (s : string) : option (string * string) :=
  match s with
  | EmptyString => None
  | String c r =>
      match rpartition sep r with
      | Some (a, b) => Some (String c a, b)
      | None => if Ascii.eqb c sep then Some (EmptyString, r) else None
      end
  end.

Fixpoint digits (acc : Z) (s : string) : option Z :=
  match s with
  | EmptyString => Some acc
  | String c r =>
      let n := nat_of_ascii c in
      if (48 <=? n)%nat && (n <=? 57)%nat
      then digits (10 * acc + Z.of_nat (n - 48)) r
      else None
  end.

(** A parser for [ssh://[user@]host[:port]] with a lower-case host name. *)
Definition parse (url : string) : exn + ParseResult :=
  if prefix "ssh://" url then
    let auth := substring 6 (String.length url - 6) url in
    let (userinfo, hostinfo) :=
      match rpartition "@" auth with
      | Some (u, h) => (Some u, h)
      | None => (None, auth)
      end in
    let name :=
      match userinfo with
      | Some u => match partition ":" u with
                  | Some (n, _) => Some n
                  | None => Some u
                  end
      | None => None
      end in
    let (h, p) :=
      match partition ":" hostinfo with
      | Some (h, p) => (h, Some p)
      | None => (hostinfo, None)
      end in
    let host := if nonempty h then Some h else None in
    match p with
    | Some EmptyString => inl ValueError
    | Some ps =>
        match digits 0 ps with
        | Some z => inr {| hostname := host; username := name; url_port := Some z |}
        | None => inl ValueError
        end
    | None => inr {| hostname := host; username := name; url_port := None |}
    end
  else inl ValueError.

#[local] Instance platform : Platform := {|
  Ext := world;
  DEFAULT_SSH_ARGS := ["-oLogLevel=ERROR"; "-oBatchMode=yes"];
  engine_execute := execute;
  engine_put := transfer;
  cf_remote_dir := fun w => home w +++ "/.cfengine/cf-remote";
  whoami := me;
  urlparse := parse;
  popen := spawn;
  proc_poll := status;
  proc_signal := kill;
  run_shell := shell;
  environ := env;
  expanduser := fun p _ => p;
  abspath := fun p _ => if prefix "/" p then p else "/work/" +++ p;
  pw_name := me;
  shutil_copy := fun _ _ w => (inr tt, w)
|}.

(** A host that lets [ubuntu] in, seen by the user [alice]. *)
Definition w0 : world := {|
  accepted := ["ubuntu"];
  me := "alice";
  key := None;
  running := [];
  spawned := 1;
  replies := [];
  transfer_code := 1
|}.

(** The same host seen by [root], whom it lets in as well. *)
Definition w_root : world := {|
  accepted := ["ubuntu"; "root"];
  me := "root";
  key := Some "/keys/id";
  running := [];
  spawned := 1;
  replies := [];
  transfer_code := 0
|}.

(** A host that lets nobody in. *)
Definition w_closed : world := {|
  accepted := [];
  me := "alice";
  key := None;
  running := [];
  spawned := 1;
  replies := [];
  transfer_code := 0
|}.

(** A command whose output starts with an empty line. *)
Definition motd : ExecutionResult := {|
  command := "cat motd";
  retcode := 0;
  stdout := Some (String LF ("ok" +++ String CR (chr LF)));
  stderr := Some EmptyString
|}.

(** A command that fails. *)
Definition missing : ExecutionResult := {|
  command := "test -f x";
  retcode := 1;
  stdout := Some EmptyString;
  stderr := None
|}.

Definition w_motd : world := {|
  accepted := ["ubuntu"];
  me := "alice";
  key := None;
  running := [7];
  spawned := 8;
  replies := [("cat motd", motd); ("test -f x", missing)];
  transfer_code := 0
|}.

(** A connection as [connect] leaves it, its control master being the
    process 7. *)
Definition conn (sudo : bool) : Connection.t := {|
  Connection.ssh_host := Some "web1";
  Connection.ssh_port := 22;
  Connection.ssh_user := "ubuntu";
  Connection._connect_kwargs := Some [("key_filename", "/keys/id")];
  Connection._control_path := "/home/alice/.cfengine/cf-remote/%C";
  Connection._ssh_control_master := Some 7;
  Connection.needs_sudo := sudo
|}.

(** A connection for a user the host does not let in: the engine raises on
    every command. *)
Definition stranger : Connection.t := {|
  Connection.ssh_host := Some "web1";
  Connection.ssh_port := 22;
  Connection.ssh_user := "mallory";
  Connection._connect_kwargs := None;
  Connection._control_path := "/home/alice/.cfengine/cf-remote/%C";
  Connection._ssh_control_master := Some 7;
  Connection.needs_sudo := true
|}.

(** The address [web1] parsed. *)
Definition web1 : ParseResult :=
  {| hostname := Some "web1"; username := None; url_port := None |}.

End Scenario.

(** ** Further observations and a second concrete platform *)


(** The transfers handed to the engine: source, destination and echo. *)
Definition transfer_of (ev : event) : list (string * string * bool) :=
  match ev with
  | EPut _ src dst echo => [(src, dst, echo)]
  | _ => []
  end.

(** The host handles of the commands handed to the engine. *)
Definition execute_hosts (ev : event) : list Host :=
  match ev with
  | EExecute hosts _ _ => hosts
  | _ => []
  end.

(** The command lines of the processes spawned. *)
Definition popen_args (ev : event) : list (list string) :=
  match ev with
  | EPopen args => [args]
  | _ => []
  end.

(** Every character of [s] is one of [chars]. *)
Fixpoint all_in (chars s : string) : bool :=
  match s with
  | EmptyString => true
  | String c r => mem c chars && all_in chars r
  end.

Section EnvironmentKey.
Context {P : Platform}.

(** The identity file arguments that follow from [CF_REMOTE_SSH_KEY]. *)
Definition env_key_args (e : Ext) : list string :=
  match environ "CF_REMOTE_SSH_KEY" e with
  | Some k => if nonempty k then ["-i"; expanduser k e] else []
  | None => []
  end.

End EnvironmentKey.

Module Edge.

(** The platform of [Scenario] with no [HOME] in the environment. *)
Definition homeless : Platform := {|
  Ext := Scenario.world;
  DEFAULT_SSH_ARGS := ["-oLogLevel=ERROR"; "-oBatchMode=yes"];
  engine_execute := Scenario.execute;
  engine_put := Scenario.transfer;
  cf_remote_dir := fun w => "/var/cf-remote";
  whoami := Scenario.me;
  urlparse := Scenario.parse;
  popen := Scenario.spawn;
  proc_poll := Scenario.status;
  proc_signal := Scenario.kill;
  run_shell := Scenario.shell;
  environ := fun name w =>
    if (name =? "CF_REMOTE_SSH_KEY")%string then Scenario.key w else None;
  expanduser := fun p _ => p;
  abspath := fun p _ => if prefix "/" p then p else "/work/" +++ p;
  pw_name := Scenario.me;
  shutil_copy := fun _ _ w => (inr tt, w)
|}.

(** A host that runs the probe for anybody but any other command only for the
    users it lets in: a stranger passes the constructor and is turned away by
    the verification. *)
Definition probe_for_all (hosts : list Host) (cmd : string) (echo : bool)
    (w : Scenario.world)
  : (exn + list (Host * list ExecutionResult)) * Scenario.world :=
  if (cmd =? "echo $UID")%string
  then (inr (map (fun h => (h, [Scenario.reply w cmd])) hosts), w)
  else Scenario.execute hosts cmd echo w.

Definition guarded : Platform := {|
  Ext := Scenario.world;
  DEFAULT_SSH_ARGS := ["-oLogLevel=ERROR"; "-oBatchMode=yes"];
  engine_execute := probe_for_all;
  engine_put := Scenario.transfer;
  cf_remote_dir := fun w => Scenario.home w +++ "/.cfengine/cf-remote";
  whoami := Scenario.me;
  urlparse := Scenario.parse;
  popen := Scenario.spawn;
  proc_poll := Scenario.status;
  proc_signal := Scenario.kill;
  run_shell := Scenario.shell;
  environ := Scenario.env;
  expanduser := fun p _ => p;
  abspath := fun p _ => if prefix "/" p then p else "/work/" +++ p;
  pw_name := Scenario.me;
  shutil_copy := fun _ _ w => (inr tt, w)
|}.

(** A probe that comes back without captured output. *)
Definition mute : ExecutionResult := {|
  command := "echo $UID";
  retcode := 0;
  stdout := None;
  stderr := None
|}.

(** A host that lets [ubuntu] in but answers the probe without output. *)
Definition w_mute : Scenario.world := {|
  Scenario.accepted := ["ubuntu"];
  Scenario.me := "ubuntu";
  Scenario.key := Some "~/.ssh/id";
  Scenario.running := [];
  Scenario.spawned := 1;
  Scenario.replies := [("echo $UID", mute)];
  Scenario.transfer_code := 0
|}.

(** The root user: the probe prints 0, here followed by a no-break space and
    a newline. *)
Definition uid0 : ExecutionResult := {|
  command := "echo $UID";
  retcode := 0;
  stdout := Some ("0" +++ String "160" (chr LF));
  stderr := None
|}.

Definition w_uid0 : Scenario.world := {|
  Scenario.accepted := ["root"];
  Scenario.me := "root";
  Scenario.key := None;
  Scenario.running := [7];
  Scenario.spawned := 8;
  Scenario.replies := [("echo $UID", uid0)];
  Scenario.transfer_code := 0
|}.

(** A host on which the wrapped command is refused. *)
Definition denied : ExecutionResult := {|
  command := "sudo bash -c " +++ chr DQ +++ "cat motd" +++ chr DQ;
  retcode := 1;
  stdout := None;
  stderr := Some "sudo: a password is required"
|}.

Definition w_denied : Scenario.world := {|
  Scenario.accepted := ["ubuntu"];
  Scenario.me := "alice";
  Scenario.key := None;
  Scenario.running := [7];
  Scenario.spawned := 8;
  Scenario.replies :=
    [("sudo bash -c " +++ chr DQ +++ "cat motd" +++ chr DQ, denied)];
  Scenario.transfer_code := 0
|}.

End Edge.

(** The first and the last character of a string. *)
Definition first_char (s : string) : option ascii := get 0 s.

Definition last_char (s : string) : option ascii := get (String.length s - 1) s.

(** * Properties *)

(** ** Strings: the library calls of the code against the wording *)

Lemma append_empty_r (s : string) : s +++ EmptyString = s.
Proof. induction s as [|c r IH]; [reflexivity|]. cbn. rewrite IH. reflexivity. Qed.

Lemma mem_newline (c : ascii) : mem c (chr LF) = Ascii.eqb c LF.
Proof. unfold chr. simpl. apply orb_false_r. Qed.

Lemma lstrip_newlines (s : string) :
  lstrip (chr LF) s = Spec.strip_leading_newlines s.
Proof.
  induction s as [|c r IH]; [reflexivity|].
  cbn [lstrip Spec.strip_leading_newlines].
  rewrite mem_newline, IH. reflexivity.
Qed.

Lemma rstrip_empty_iff (s : string) :
  rstrip (chr LF) s = EmptyString <-> Spec.all_newlines s = true.
Proof.
  induction s as [|c r IH]; cbn [rstrip Spec.all_newlines].
  - tauto.
  - rewrite mem_newline. destruct (rstrip (chr LF) r) eqn:R.
    + assert (Spec.all_newlines r = true) as -> by (apply IH; reflexivity).
      rewrite andb_true_r. destruct (Ascii.eqb c LF); split; intro H;
        try reflexivity; discriminate H.
    + split; [discriminate|]. intro H. apply andb_true_iff in H as [_ H].
      apply IH in H. discriminate H.
Qed.

Lemma rstrip_newlines (s : string) :
  rstrip (chr LF) s = Spec.strip_trailing_newlines s.
Proof.
  induction s as [|c r IH]; [reflexivity|].
  cbn [rstrip]. rewrite mem_newline.
  change (Spec.strip_trailing_newlines (String c r))
    with (if Ascii.eqb c LF && Spec.all_newlines r then EmptyString
          else String c (Spec.strip_trailing_newlines r)).
  destruct (rstrip (chr LF) r) eqn:R.
  - assert (Spec.all_newlines r = true) as A by (apply rstrip_empty_iff; exact R).
    rewrite A, andb_true_r, <- IH.
    destruct (Ascii.eqb c LF); reflexivity.
  - assert (Spec.all_newlines r = false) as A.
    { destruct (Spec.all_newlines r) eqn:A; [|reflexivity].
      apply rstrip_empty_iff in A. rewrite A in R. discriminate R. }
    rewrite A, andb_false_r, <- IH. reflexivity.
Qed.

Lemma strip_newlines (s : string) :
  strip (chr LF) s
  = Spec.strip_trailing_newlines (Spec.strip_leading_newlines s).
Proof. unfold strip. rewrite lstrip_newlines. apply rstrip_newlines. Qed.

Lemma prefix_crlf (a b : ascii) (r : string) :
  prefix (String CR (chr LF)) (String a (String b r))
  = Ascii.eqb a CR && Ascii.eqb b LF.
Proof.
  unfold chr. cbn [prefix].
  destruct (ascii_dec CR a) as [<-|Na].
  - rewrite Ascii.eqb_refl. destruct (ascii_dec LF b) as [<-|Nb].
    + rewrite Ascii.eqb_refl. destruct r; reflexivity.
    + rewrite (proj2 (Ascii.eqb_neq b LF)) by congruence. reflexivity.
  - rewrite (proj2 (Ascii.eqb_neq a CR)) by congruence. reflexivity.
Qed.

Lemma replace_crlf (s : string) :
  replace (String CR (chr LF)) (chr LF) s = Spec.crlf_to_lf s.
Proof.
  unfold replace.
  set (old := String CR (chr LF)). set (new := chr LF).
  change (match old with EmptyString => replace_empty new s
                    | String _ _ => replace_from old new 0 s end)
    with (replace_from old new 0 s).
  enough (H : replace_from old new 0 s = Spec.crlf_to_lf s /\
              forall a, replace_from old new 0 (String a s)
                        = Spec.crlf_to_lf (String a s)) by apply H.
  induction s as [|b r [IH1 IH2]].
  - split; [reflexivity|]. intro a. subst old. unfold chr.
    cbn [replace_from prefix Spec.crlf_to_lf].
    destruct (ascii_dec CR a); reflexivity.
  - split; [apply IH2|]. intro a.
    change (replace_from old new 0 (String a (String b r)))
      with (if prefix old (String a (String b r))
            then new +++ replace_from old new 1 (String b r)
            else String a (replace_from old new 0 (String b r))).
    subst old. rewrite prefix_crlf.
    change (Spec.crlf_to_lf (String a (String b r)))
      with (if Ascii.eqb a CR && Ascii.eqb b LF
            then String LF (Spec.crlf_to_lf r)
            else String a (Spec.crlf_to_lf (String b r))).
    destruct (Ascii.eqb a CR && Ascii.eqb b LF).
    + subst new. unfold chr. cbn [replace_from String.append]. f_equal. exact IH1.
    + f_equal. apply IH2.
Qed.

Lemma replace_double_quotes (s : string) :
  replace (chr DQ) (String BS (chr DQ)) s = Spec.escape_double_quotes s.
Proof.
  unfold replace, chr.
  induction s as [|c r IH]; [reflexivity|].
  cbn [replace_from prefix Spec.escape_double_quotes String.length Nat.sub String.append].
  destruct (ascii_dec DQ c) as [<-|N].
  - rewrite Ascii.eqb_refl. destruct r; cbn [String.append]; rewrite <- IH; reflexivity.
  - rewrite (proj2 (Ascii.eqb_neq c DQ)) by congruence.
    rewrite IH. reflexivity.
Qed.

Lemma sudo_command (cmd : string) :
  pyformat sudo_format [VStr (replace (chr DQ) (String BS (chr DQ)) cmd)]
  = Spec.sudo_wrap cmd.
Proof. rewrite replace_double_quotes. reflexivity. Qed.

(** ** The monad *)

Section MonadFacts.
Context {P : Platform}.

Lemma bind_inr {A B} (m : M A) (k : A -> M B) (e : Ext) (a : A) :
  outcome (m e) = inr a ->
  bind m k e = mkRes (outcome (k a (final (m e))))
                     (final (k a (final (m e))))
                     (events (m e) ++ events (k a (final (m e)))).
Proof. intro H. unfold bind. rewrite H. reflexivity. Qed.

Lemma bind_inl {A B} (m : M A) (k : A -> M B) (e : Ext) (x : exn) :
  outcome (m e) = inl x ->
  bind m k e = mkRes (inl x) (final (m e)) (events (m e)).
Proof. intro H. unfold bind. rewrite H. reflexivity. Qed.

Lemma bind_returns {A B} (m : M A) (k : A -> M B) (e : Ext) (b : B) :
  outcome (bind m k e) = inr b ->
  exists a, outcome (m e) = inr a /\ outcome (k a (final (m e))) = inr b.
Proof.
  unfold bind. destruct (outcome (m e)) as [x|a]; cbn [outcome]; intro H.
  - discriminate H.
  - exists a. split; [reflexivity | exact H].
Qed.

(** What a projection of the events sees of a sequence. *)
Lemma bind_observed {A B X} (f : event -> list X) (m : M A) (k : A -> M B) (e : Ext) :
  flat_map f (events (bind m k e))
  = flat_map f (events (m e))
    ++ match outcome (m e) with
       | inr a => flat_map f (events (k a (final (m e))))
       | inl _ => []
       end.
Proof.
  unfold bind. destruct (outcome (m e)); cbn [events].
  - rewrite app_nil_r. reflexivity.
  - apply flat_map_app.
Qed.

Lemma of_option_returns {A} (x : exn) (o : option A) (e : Ext) (a : A) :
  outcome (of_option x o e) = inr a -> o = Some a.
Proof. destruct o; cbn; intro H; [injection H as ->; reflexivity | discriminate H]. Qed.

End MonadFacts.

(** ** Dispatch: ssh_cmd and ssh_sudo *)

Section Dispatch.
Context {P : Platform}.

Lemma report_failure_outcome (fmt cmd : string) (r : ExecutionResult)
    (errors : bool) (e : Ext) :
  outcome (report_failure fmt cmd r errors e) = inr None
  /\ final (report_failure fmt cmd r errors e) = e.
Proof. unfold report_failure. destruct errors; split; reflexivity. Qed.

(** C4, as the code has it.  When the command has run and its return code is
    0, [ssh_cmd] returns the captured output with every CRLF replaced by LF and
    the newlines at both ends, leading as well as trailing, stripped; when the
    return code is not 0 it returns [None], whether or not errors are
    surfaced, and does not raise. *)
Theorem ssh_cmd_result (c : connection) (cmd : string) (errors : bool)
    (e : Ext) (r : ExecutionResult) :
  outcome (connection_run c cmd true e) = inr r ->
  (forall s, retcode r = 0%Z -> stdout r = Some s ->
     outcome (ssh_cmd (Some c) cmd errors e)
     = inr (Some (Spec.strip_trailing_newlines
                    (Spec.strip_leading_newlines (Spec.crlf_to_lf s)))))
  /\ (retcode r <> 0%Z -> outcome (ssh_cmd (Some c) cmd errors e) = inr None).
Proof.
  intro Hrun. unfold ssh_cmd.
  rewrite (bind_inr _ _ e c) by reflexivity. cbn [outcome final events of_option ret].
  rewrite (bind_inr _ _ e r) by exact Hrun. cbn [outcome].
  split.
  - intros s Hz Hs. rewrite Hz, Hs. cbn -[replace strip pyformat].
    rewrite replace_crlf, strip_newlines. reflexivity.
  - intro Hnz. apply Z.eqb_neq in Hnz. rewrite Hnz.
    apply report_failure_outcome.
Qed.

(** C5, as the code has it.  [ssh_sudo] runs, on a connection that needs
    elevation, the command wrapped as [sudo bash -c] followed by the command
    in double quotes with its own double quotes escaped, and the command
    itself otherwise.  When that run gives return code 0 the output is
    returned with the newlines at both ends stripped and CRLF left as it is;
    otherwise [None] is returned. *)
Theorem ssh_sudo_result (c : connection) (cmd : string) (errors : bool)
    (e : Ext) (r : ExecutionResult) :
  let issued := if connection_needs_sudo c then Spec.sudo_wrap cmd else cmd in
  outcome (connection_run c issued true e) = inr r ->
  (exists tail,
     events (ssh_sudo (Some c) cmd errors e)
     = events (connection_run c issued true e) ++ tail
     /\ commands_run tail = [])
  /\ (forall s, retcode r = 0%Z -> stdout r = Some s ->
        outcome (ssh_sudo (Some c) cmd errors e)
        = inr (Some (Spec.strip_trailing_newlines
                       (Spec.strip_leading_newlines s))))
  /\ (retcode r <> 0%Z -> outcome (ssh_sudo (Some c) cmd errors e) = inr None).
Proof.
  intros issued Hrun. unfold ssh_sudo.
  rewrite (bind_inr _ _ e c) by reflexivity.
  cbn [outcome final events of_option ret app].
  assert (Hsame :
    (if connection_needs_sudo c
     then connection_run c
            (pyformat sudo_format [VStr (replace (chr DQ) (String BS (chr DQ)) cmd)]) true
     else connection_run c cmd true) = connection_run c issued true).
  { subst issued. rewrite sudo_command. destruct (connection_needs_sudo c); reflexivity. }
  rewrite Hsame. rewrite (bind_inr _ _ e r) by exact Hrun. cbn [outcome events].
  repeat split.
  - eexists. split; [reflexivity|].
    destruct (retcode r =? 0)%Z.
    + destruct (stdout r); reflexivity.
    + unfold report_failure. destruct errors; reflexivity.
  - intros s Hz Hs. rewrite Hz, Hs. cbn -[strip pyformat].
    rewrite strip_newlines. reflexivity.
  - intro Hnz. apply Z.eqb_neq in Hnz. rewrite Hnz.
    apply report_failure_outcome.
Qed.

End Dispatch.

(** ** The two connection classes *)

Section Connections.
Context {P : Platform}.

Lemma control_path_arg_text (self : Connection.t) :
  Connection.control_path_arg self
  = "-oControlPath=" +++ Connection._control_path self.
Proof.
  unfold Connection.control_path_arg. cbn. rewrite append_empty_r. reflexivity.
Qed.

(** The events of [Connection.run] up to and including the engine call do not
    depend on what the engine answers. *)
Lemma poll_run (pid : nat) (e : Ext) :
  poll pid e
  = mkRes (inr (fst (proc_poll pid e))) (snd (proc_poll pid e)) [EPoll pid].
Proof.
  unfold poll, bind, emit, call. cbn [outcome final events].
  destruct (proc_poll pid e). reflexivity.
Qed.

(** The engine call of [run] and the two lookups in its result. *)
Lemma execute_lookup_events (hosts : list Host) (h : Host) (cmd : string)
    (echo : bool) (e : Ext) :
  events ((results <- aramid_execute hosts cmd echo ;;
           l <- of_option KeyError (dict_get results h) ;;
           of_option IndexError (nth_error l 0)) e)
  = [EExecute hosts cmd echo].
Proof.
  unfold aramid_execute, bind, emit, call. cbn [outcome final events].
  destruct (engine_execute hosts cmd echo e) as [[x|res] e1];
    cbn [outcome final events app]; [reflexivity|].
  destruct (dict_get res h) as [l|]; cbn [of_option ret raise outcome final events app];
    [|reflexivity].
  destruct (nth_error l 0); reflexivity.
Qed.

Lemma run_events (self : Connection.t) (cmd : string) (hide : bool)
    (e : Ext) (pid : nat) :
  Connection._ssh_control_master self = Some pid ->
  events (Connection.run self cmd hide e)
  = EPoll pid ::
    match fst (proc_poll pid e) with
    | None =>
        [ELog DEBUG (Text "Control Master is running, using it");
         EExecute [{| host_name := Connection.ssh_host self;
                      user := Connection.ssh_user self;
                      port := Connection.ssh_port self;
                      extra_ssh_args :=
                        Some (Connection.key_args self
                              ++ [Connection.control_path_arg self]) |}]
                  cmd (negb hide)]
    | Some _ =>
        [EExecute [{| host_name := Connection.ssh_host self;
                      user := Connection.ssh_user self;
                      port := Connection.ssh_port self;
                      extra_ssh_args := Some (Connection.key_args self) |}]
                  cmd (negb hide)]
    end.
Proof.
  intro Hm. unfold Connection.run. rewrite Hm. cbv zeta.
  rewrite (bind_inr _ _ e pid) by reflexivity.
  cbn [of_option ret outcome final events app].
  rewrite (bind_inr _ _ e (fst (proc_poll pid e))) by (rewrite poll_run; reflexivity).
  rewrite poll_run. cbn [outcome final events app]. f_equal.
  destruct (fst (proc_poll pid e)) as [code|].
  - rewrite (bind_inr _ _ _ (Connection.key_args self)) by reflexivity.
    cbn [ret outcome final events app]. apply execute_lookup_events.
  - rewrite (bind_inr _ _ _ (Connection.key_args self
                             ++ [Connection.control_path_arg self])) by reflexivity.
    cbn [log_debug emit ret bind outcome final events app]. f_equal.
    apply execute_lookup_events.
Qed.

Lemma first_result_returns (o : exn + list (Host * list ExecutionResult))
    (h : Host) (r : ExecutionResult) :
  first_result o h = inr r
  <-> exists res l, o = inr res /\ dict_get res h = Some l /\ nth_error l 0 = Some r.
Proof.
  unfold first_result. split.
  - destruct o as [x|res]; [discriminate|].
    destruct (dict_get res h) as [l|] eqn:D; [|discriminate].
    destruct (nth_error l 0) as [r0|] eqn:N; [|discriminate].
    intro E. injection E as <-. exists res, l. repeat split; assumption.
  - intros (res & l & -> & -> & ->). reflexivity.
Qed.

(** The engine call of [run] with its two lookups, as one step. *)
Lemma execute_lookup_run (hosts : list Host) (h : Host) (cmd : string)
    (echo : bool) (e : Ext) :
  (results <- aramid_execute hosts cmd echo ;;
   l <- of_option KeyError (dict_get results h) ;;
   of_option IndexError (nth_error l 0)) e
  = mkRes (first_result (fst (engine_execute hosts cmd echo e)) h)
          (snd (engine_execute hosts cmd echo e))
          [EExecute hosts cmd echo].
Proof.
  unfold aramid_execute, bind, emit, call, first_result.
  cbn [outcome final events].
  destruct (engine_execute hosts cmd echo e) as [[x|res] e1];
    cbn [outcome final events app fst snd]; [reflexivity|].
  destruct (dict_get res h) as [l|]; cbn [of_option ret raise outcome final events app];
    [|reflexivity].
  destruct (nth_error l 0); reflexivity.
Qed.

(** What [Connection.run] returns and the state it leaves: those of the
    engine called, after the poll, on the one handle of the connection. *)
Lemma run_outcome (self : Connection.t) (cmd : string) (hide : bool)
    (e : Ext) (pid : nat) :
  Connection._ssh_control_master self = Some pid ->
  let ahost :=
    {| host_name := Connection.ssh_host self;
       user := Connection.ssh_user self;
       port := Connection.ssh_port self;
       extra_ssh_args :=
         Some (Connection.key_args self
               ++ match fst (proc_poll pid e) with
                  | None => [Connection.control_path_arg self]
                  | Some _ => []
                  end) |} in
  outcome (Connection.run self cmd hide e)
  = first_result (fst (engine_execute [ahost] cmd (negb hide)
                         (snd (proc_poll pid e)))) ahost
  /\ final (Connection.run self cmd hide e)
     = snd (engine_execute [ahost] cmd (negb hide) (snd (proc_poll pid e))).
Proof.
  intro Hm. cbv zeta. unfold Connection.run. rewrite Hm. cbv zeta.
  rewrite (bind_inr _ _ e pid) by reflexivity.
  cbn [of_option ret outcome final events app].
  rewrite (bind_inr _ _ e (fst (proc_poll pid e))) by (rewrite poll_run; reflexivity).
  rewrite poll_run. cbn [outcome final events app].
  destruct (fst (proc_poll pid e)) as [code|].
  - rewrite (bind_inr _ _ _ (Connection.key_args self)) by reflexivity.
    cbn [ret outcome final events app]. rewrite execute_lookup_run.
    rewrite app_nil_r. split; reflexivity.
  - rewrite (bind_inr _ _ _ (Connection.key_args self
                             ++ [Connection.control_path_arg self])) by reflexivity.
    cbn [log_debug emit ret bind outcome final events app].
    rewrite execute_lookup_run. split; reflexivity.
Qed.

(** C6.  [Connection.run] polls the control master once, without waiting.
    The extra arguments of the host handle are the identity file arguments
    followed by the control path exactly when the poll finds the process
    running ([None]); when it does not, the path is left out.  In both cases
    the command goes to the engine, on that handle and in the state the poll
    leaves, and [run] returns what the engine gives for the handle (or raises
    what the engine raises) and leaves the state the engine leaves: it does
    not fail of its own when the control master is gone. *)
Theorem run_control_path (self : Connection.t) (cmd : string) (hide : bool)
    (e : Ext) (pid : nat) :
  Connection._ssh_control_master self = Some pid ->
  exists tail note,
    (tail = [Connection.control_path_arg self] <-> fst (proc_poll pid e) = None)
    /\ (tail = [] <-> fst (proc_poll pid e) <> None)
    /\ events (Connection.run self cmd hide e)
       = [EPoll pid] ++ map (ELog DEBUG) note
         ++ [EExecute [{| host_name := Connection.ssh_host self;
                          user := Connection.ssh_user self;
                          port := Connection.ssh_port self;
                          extra_ssh_args :=
                            Some (Connection.key_args self ++ tail) |}]
                      cmd (negb hide)]
    /\ outcome (Connection.run self cmd hide e)
       = first_result
           (fst (engine_execute
                   [{| host_name := Connection.ssh_host self;
                       user := Connection.ssh_user self;
                       port := Connection.ssh_port self;
                       extra_ssh_args :=
                         Some (Connection.key_args self ++ tail) |}]
                   cmd (negb hide) (snd (proc_poll pid e))))
           {| host_name := Connection.ssh_host self;
              user := Connection.ssh_user self;
              port := Connection.ssh_port self;
              extra_ssh_args := Some (Connection.key_args self ++ tail) |}
    /\ final (Connection.run self cmd hide e)
       = snd (engine_execute
                [{| host_name := Connection.ssh_host self;
                    user := Connection.ssh_user self;
                    port := Connection.ssh_port self;
                    extra_ssh_args :=
                      Some (Connection.key_args self ++ tail) |}]
                cmd (negb hide) (snd (proc_poll pid e))).
Proof.
  intro Hm. rewrite (run_events self cmd hide e pid Hm).
  destruct (run_outcome self cmd hide e pid Hm) as [Ho Hf]. rewrite Ho, Hf.
  destruct (fst (proc_poll pid e)) as [code|].
  - exists [], []. rewrite app_nil_r.
    split; [split; intros; congruence|]. split; [split; intros; congruence|].
    repeat split.
  - exists [Connection.control_path_arg self],
           [Text "Control Master is running, using it"].
    split; [split; intros; congruence|]. split; [split; intros; congruence|].
    repeat split.
Qed.

(** C10.  [Connection.put] hands the engine one host handle, built without
    extra arguments: neither the identity file of the construction nor the
    control path is passed, and the control master is not polled, whatever the
    connection holds. *)
Theorem put_host_handle (self : Connection.t) (src : string) (hide : bool) (e : Ext) :
  events (Connection.put self src hide e)
  = [EPut [{| host_name := Connection.ssh_host self;
              user := Connection.ssh_user self;
              port := Connection.ssh_port self;
              extra_ssh_args := None |}]
          src (basename src) (negb hide)]
  /\ map extra_ssh_args (flat_map put_hosts (events (Connection.put self src hide e)))
     = [None]
  /\ filter is_poll (events (Connection.put self src hide e)) = [].
Proof.
  assert (H : events (Connection.put self src hide e)
              = [EPut [{| host_name := Connection.ssh_host self;
                          user := Connection.ssh_user self;
                          port := Connection.ssh_port self;
                          extra_ssh_args := None |}]
                      src (basename src) (negb hide)]).
  { unfold Connection.put, aramid_put, bind, emit, call, of_option, ret, raise.
    cbn [outcome final events app].
    destruct (engine_put _ src (basename src) (negb hide) e) as [[x|res] e1];
      cbn [outcome final events app]; [reflexivity|].
    destruct (dict_get res _) as [l|]; cbn [outcome final events app]; [|reflexivity].
    destruct (nth_error l 0); reflexivity. }
  rewrite H. repeat split.
Qed.

(** C8, as the code has it.  The result of the local [run] carries the return
    code of the shell, so it is 0 exactly when the shell reported success, and
    its [stdout] is a string, the merged output with its line ends
    translated; its [stderr] is [None], since stderr is redirected into stdout
    and not captured.  The remote [run] returns exactly the first result the
    engine lists for the handle of the connection, unchanged, the engine
    being called on that one handle after the poll. *)
Theorem run_result :
  (forall (cmd : string) (hide : bool) (e e' : Ext) (home out err : string) (rc : Z),
      environ "HOME" e = Some home ->
      run_shell cmd home true e = (inr (rc, out, err), e') ->
      outcome (LocalConnection.run cmd hide e)
      = inr {| command := cmd; retcode := rc;
               stdout := Some (universal_newlines out); stderr := None |})
  /\ (forall (cmd : string) (hide : bool) (e : Ext) (r : ExecutionResult),
        outcome (LocalConnection.run cmd hide e) = inr r ->
        exists out, stdout r = Some out /\ stderr r = None)
  /\ (forall (self : Connection.t) (cmd : string) (hide : bool) (e : Ext)
             (pid : nat) (r : ExecutionResult),
        Connection._ssh_control_master self = Some pid ->
        let ahost :=
          {| host_name := Connection.ssh_host self;
             user := Connection.ssh_user self;
             port := Connection.ssh_port self;
             extra_ssh_args :=
               Some (Connection.key_args self
                     ++ match fst (proc_poll pid e) with
                        | None => [Connection.control_path_arg self]
                        | Some _ => []
                        end) |} in
        outcome (Connection.run self cmd hide e) = inr r
        <-> exists res l,
              fst (engine_execute [ahost] cmd (negb hide) (snd (proc_poll pid e)))
              = inr res
              /\ dict_get res ahost = Some l
              /\ nth_error l 0 = Some r).
Proof.
  split; [|split].
  - intros cmd hide e e' home out err rc Hhome Hsh.
    unfold LocalConnection.run, environ_item, subprocess_run, bind, read,
      emit, call, of_option, ret.
    cbn [outcome final events]. rewrite Hhome. cbn [outcome final events].
    rewrite Hsh. reflexivity.
  - intros cmd hide e r.
    unfold LocalConnection.run, environ_item, subprocess_run, bind, read,
      emit, call, of_option, ret, raise.
    cbn [outcome final events].
    destruct (environ "HOME" e) as [home|]; cbn [outcome final events];
      [|discriminate].
    destruct (run_shell cmd home true e) as [[x|[[rc out] err]] e1];
      cbn [outcome final events]; [discriminate|].
    intro H. injection H as <-. eexists. split; reflexivity.
  - intros self cmd hide e pid r Hm. cbv zeta.
    rewrite (proj1 (run_outcome self cmd hide e pid Hm)).
    apply first_result_returns.
Qed.

End Connections.

(** ** Composition of computations that stay silent or do not exit *)

Section Composition.
Context {P : Platform}.

Lemma silent_ret {A X} (f : event -> list X) (a : A) : silent f (ret a).
Proof. intro e. reflexivity. Qed.

Lemma silent_raise {A X} (f : event -> list X) (x : exn) : silent f (@raise P A x).
Proof. intro e. reflexivity. Qed.

Lemma silent_read {A X} (f : event -> list X) (g : Ext -> A) : silent f (read g).
Proof. intro e. reflexivity. Qed.

Lemma silent_call {A X} (f : event -> list X) (g : Ext -> (exn + A) * Ext) :
  silent f (call g).
Proof. intro e. unfold call. destruct (g e). reflexivity. Qed.

Lemma silent_of_option {A X} (f : event -> list X) (x : exn) (o : option A) :
  silent f (of_option x o).
Proof. intro e. destruct o; reflexivity. Qed.

Lemma silent_of_sum {A X} (f : event -> list X) (o : exn + A) : silent f (of_sum o).
Proof. intro e. reflexivity. Qed.

Lemma silent_emit {X} (f : event -> list X) (ev : event) :
  f ev = [] -> silent f (emit ev).
Proof. intros H e. cbn. rewrite H. reflexivity. Qed.

Lemma silent_bind {A B X} (f : event -> list X) (m : M A) (k : A -> M B) :
  silent f m -> (forall a, silent f (k a)) -> silent f (bind m k).
Proof.
  intros Hm Hk e. rewrite bind_observed, Hm.
  destruct (outcome (m e)); [reflexivity | apply Hk].
Qed.



Lemma rr_ret {A} (a : A) : returns_or_raises (ret a).
Proof. intros e msg. discriminate. Qed.

Lemma rr_raise {A} (x : exn) :
  is_SystemExit x = false -> returns_or_raises (@raise P A x).
Proof. intros H e msg E. cbn in E. injection E as ->. discriminate H. Qed.

Lemma rr_read {A} (g : Ext -> A) : returns_or_raises (read g).
Proof. intros e msg. discriminate. Qed.

Lemma rr_emit (ev : event) : returns_or_raises (emit ev).
Proof. intros e msg. discriminate. Qed.

Lemma rr_call {A} (g : Ext -> (exn + A) * Ext) :
  never_exits g -> returns_or_raises (call g).
Proof.
  intros H e msg. unfold call. specialize (H e msg).
  destruct (g e) as [o e']. exact H.
Qed.

Lemma rr_of_option {A} (x : exn) (o : option A) :
  is_SystemExit x = false -> returns_or_raises (of_option x o).
Proof.
  intros H. destruct o; [apply rr_ret | apply rr_raise; exact H].
Qed.

Lemma rr_bind {A B} (m : M A) (k : A -> M B) :
  returns_or_raises m -> (forall a, returns_or_raises (k a)) ->
  returns_or_raises (bind m k).
Proof.
  intros Hm Hk e msg. unfold bind.
  destruct (outcome (m e)) as [x|a] eqn:E; cbn [outcome].
  - intro H. injection H as ->. exact (Hm e msg E).
  - apply Hk.
Qed.

Lemma rr_with {A} (mgr : Connection.t) (body : Connection.t -> M A) :
  (forall c, returns_or_raises (body c)) ->
  returns_or_raises (Connection.with_ mgr body).
Proof.
  intros Hb e msg. unfold Connection.with_, Connection.__enter__, Connection.__exit__.
  unfold bind, ret. cbn [outcome final events]. apply Hb.
Qed.

End Composition.

Ltac unfold_library :=
  unfold log_debug, log_error, print, environ_item, getenv, Popen, poll,
    send_signal, subprocess_run, copy, aramid_execute, aramid_put, sys_exit.

Ltac silence :=
  repeat first
    [ progress intros
    | apply silent_ret | apply silent_raise | apply silent_read
    | apply silent_call | apply silent_of_option | apply silent_of_sum
    | apply silent_emit; reflexivity
    | apply silent_bind
    | match goal with
      | |- silent _ (match ?x with _ => _ end) => destruct x
      end ].

Ltac no_exit :=
  repeat first
    [ progress intros
    | apply rr_ret | apply rr_read | apply rr_emit
    | apply rr_raise; reflexivity
    | apply rr_of_option; reflexivity
    | apply rr_bind
    | match goal with
      | |- returns_or_raises (match ?x with _ => _ end) => destruct x
      end ].

(** ** Connection establishment *)

Section Establish.
Context {P : Platform}.

Lemma run_spawns_nothing (self : Connection.t) (cmd : string) (hide : bool) :
  silent spawn_target (Connection.run self cmd hide).
Proof. unfold Connection.run. unfold_library. cbv zeta. silence. Qed.

Lemma Popen_events (args : list string) (e : Ext) :
  events (Popen args e) = [EPopen args].
Proof.
  unfold Popen, bind, emit, call. cbn [outcome final events].
  destruct (popen args e). reflexivity.
Qed.

Lemma format_target (host : option string) (user : string) :
  pyformat "%s@%s" [VStr user; opt_str host] = target_of host user.
Proof. unfold target_of. cbn. rewrite append_empty_r. reflexivity. Qed.

Lemma control_master_target (host : option string) (user : string) (port : Z)
    (path : string) :
  last (Connection.control_master_args host user port path) EmptyString
  = target_of host user.
Proof.
  unfold Connection.control_master_args.
  rewrite app_assoc, last_last. apply format_target.
Qed.

(** The constructor spawns one process, the control master for the user. *)
Lemma init_spawns (host : option string) (user : string)
    (kw : option (list (string * string))) (port : Z) (e : Ext) :
  spawn_targets (events (Connection.__init__ host user kw port e))
  = [target_of host user].
Proof.
  unfold Connection.__init__, spawn_targets. cbv zeta.
  rewrite bind_observed. cbn [log_debug emit outcome final events flat_map spawn_target app].
  rewrite bind_observed. cbn [read outcome final events flat_map app].
  rewrite bind_observed. cbn [log_debug emit outcome final events flat_map spawn_target app].
  rewrite bind_observed, Popen_events.
  cbn [flat_map spawn_target app]. rewrite control_master_target.
  destruct (outcome (Popen _ e)) as [x|pid]; [reflexivity|].
  f_equal.
  assert (S : forall self,
    silent spawn_target
      (r <- Connection.run self "echo $UID" true ;;
       out <- of_option AttributeError (stdout r) ;;
       log_debug (Text "Connection initialized") ;;
       ret {| Connection.ssh_host := host; Connection.ssh_port := port;
              Connection.ssh_user := user; Connection._connect_kwargs := kw;
              Connection._control_path := Connection._control_path self;
              Connection._ssh_control_master := Connection._ssh_control_master self;
              Connection.needs_sudo := negb (strip_ws out =? "0")%string |})).
  { intro self. apply silent_bind; [apply run_spawns_nothing|].
    unfold log_debug. silence. }
  apply (S {| Connection.ssh_host := host; Connection.ssh_port := port;
              Connection.ssh_user := user; Connection._connect_kwargs := kw;
              Connection._control_path := _;
              Connection._ssh_control_master := Some pid;
              Connection.needs_sudo := false |}).
Qed.

(** The fields a constructed connection records. *)
Lemma init_records (host : option string) (user : string)
    (kw : option (list (string * string))) (port : Z) (e : Ext) (c : Connection.t) :
  outcome (Connection.__init__ host user kw port e) = inr c ->
  Connection.ssh_host c = host /\ Connection.ssh_user c = user
  /\ Connection.ssh_port c = port /\ Connection._connect_kwargs c = kw
  /\ exists pid, Connection._ssh_control_master c = Some pid.
Proof.
  unfold Connection.__init__. cbv zeta. intro H.
  apply bind_returns in H as (? & _ & H).
  apply bind_returns in H as (dir & _ & H).
  apply bind_returns in H as (? & _ & H).
  apply bind_returns in H as (pid & _ & H).
  apply bind_returns in H as (r & _ & H).
  apply bind_returns in H as (out & _ & H).
  apply bind_returns in H as (? & _ & H).
  cbn in H. injection H as <-. cbn. repeat split. exists pid. reflexivity.
Qed.

(** One attempt, with the environment read. *)
Lemma attempt_unfold (host : option string) (port : Z) (user : string) (e : Ext) :
  let r := (c <- Connection.__init__ host user (Some (kwargs_of e)) port ;;
            let c := {| Connection.ssh_host := host;
                        Connection.ssh_port := port;
                        Connection.ssh_user := user;
                        Connection._connect_kwargs := Connection._connect_kwargs c;
                        Connection._control_path := Connection._control_path c;
                        Connection._ssh_control_master :=
                          Connection._ssh_control_master c;
                        Connection.needs_sudo := Connection.needs_sudo c |} in
            Connection.run c "whoami" true ;; ret c) e in
  attempt host port user e
  = mkRes (outcome r) (final r)
          (ELog DEBUG (Text (pyformat "Attempting ssh: %s@%s:%s"
                               [VStr user; opt_str host; VInt port]))
           :: events r).
Proof.
  cbv zeta. unfold attempt, kwargs_of.
  rewrite (bind_inr _ _ e tt) by reflexivity.
  cbn [log_debug emit outcome final events app].
  rewrite (bind_inr _ _ e (environ "CF_REMOTE_SSH_KEY" e)) by reflexivity.
  cbn [getenv read outcome final events app].
  destruct (environ "CF_REMOTE_SSH_KEY" e) as [k|].
  - destruct (nonempty k).
    + rewrite (bind_inr _ _ e [("key_filename", expanduser k e)]) by reflexivity.
      reflexivity.
    + rewrite (bind_inr _ _ e []) by reflexivity. reflexivity.
  - rewrite (bind_inr _ _ e []) by reflexivity. reflexivity.
Qed.

Lemma attempt_spawns (host : option string) (port : Z) (user : string) (e : Ext) :
  spawn_targets (events (attempt host port user e)) = [target_of host user].
Proof.
  rewrite attempt_unfold. cbv zeta. cbn [events].
  unfold spawn_targets. cbn [flat_map spawn_target app].
  rewrite bind_observed.
  change (flat_map spawn_target (events (Connection.__init__ host user
                                           (Some (kwargs_of e)) port e)))
    with (spawn_targets (events (Connection.__init__ host user
                                   (Some (kwargs_of e)) port e))).
  rewrite init_spawns.
  destruct (outcome (Connection.__init__ host user (Some (kwargs_of e)) port e))
    as [x|c]; [reflexivity|].
  assert (S : forall c', silent spawn_target
                           (Connection.run c' "whoami" true ;; ret c')).
  { intro c'. apply silent_bind; [apply run_spawns_nothing | silence]. }
  rewrite S. reflexivity.
Qed.

Lemma attempt_records (host : option string) (port : Z) (user : string)
    (e : Ext) (c : Connection.t) :
  outcome (attempt host port user e) = inr c ->
  Connection.ssh_user c = user /\ Connection.ssh_host c = host
  /\ Connection.ssh_port c = port.
Proof.
  rewrite attempt_unfold. cbv zeta. cbn [outcome]. intro H.
  apply bind_returns in H as (c0 & _ & H).
  apply bind_returns in H as (r & _ & H).
  cbn in H. injection H as <-. repeat split.
Qed.

Lemma failed_attempts_spawn (host : option string) (port : Z) (pre : list string) :
  forall e e1 evs,
    failed_attempts host port pre e = Some (e1, evs) ->
    spawn_targets evs = map (target_of host) pre.
Proof.
  induction pre as [|u rest IH]; intros e e1 evs H.
  - cbn in H. injection H as <- <-. reflexivity.
  - cbn [failed_attempts] in H. cbv zeta in H.
    pose proof (attempt_spawns host port u e) as Hs.
    remember (attempt host port u e) as a eqn:Ha.
    destruct (outcome a) as [[]|]; try discriminate H.
    destruct (failed_attempts host port rest (final a))
      as [[e' evs']|] eqn:F; [|discriminate H].
    injection H as <- <-.
    unfold spawn_targets in *. rewrite flat_map_app, Hs.
    cbn [map app]. f_equal.
    exact (IH _ _ _ F).
Qed.

(** The loop goes through the failing users and comes to what follows. *)
Lemma connect_loop_app (host : option string) (port : Z) (pre rest : list string) :
  forall e e1 evs,
    failed_attempts host port pre e = Some (e1, evs) ->
    connect_loop host port (pre ++ rest) e
    = mkRes (outcome (connect_loop host port rest e1))
            (final (connect_loop host port rest e1))
            (evs ++ events (connect_loop host port rest e1)).
Proof.
  induction pre as [|u pre IH]; intros e e1 evs H.
  - cbn in H. injection H as <- <-. cbn [app]. destruct (connect_loop _ _ _ _); reflexivity.
  - cbn [failed_attempts] in H. cbv zeta in H.
    cbn [app connect_loop]. unfold try_except.
    remember (attempt host port u e) as a eqn:Ha.
    destruct (outcome a) as [x|] eqn:O; [|discriminate H].
    destruct x; try discriminate H.
    destruct (failed_attempts host port pre (final a))
      as [[e' evs']|] eqn:F; [|discriminate H].
    injection H as <- <-.
    cbn [is_ExecutionError].
    rewrite (IH _ _ _ F). cbn [outcome final events]. rewrite app_assoc. reflexivity.
Qed.

Lemma connect_loop_success (host : option string) (port : Z) (u : string)
    (post : list string) (e : Ext) (c : Connection.t) :
  outcome (attempt host port u e) = inr c ->
  connect_loop host port (u :: post) e = attempt host port u e.
Proof. intro H. cbn [connect_loop]. unfold try_except. rewrite H. reflexivity. Qed.

Lemma candidate_users_reads (users : option (list string)) (parts : ParseResult)
    (e : Ext) :
  final (candidate_users users parts e) = e
  /\ events (candidate_users users parts e) = [].
Proof.
  unfold candidate_users. cbv zeta.
  destruct (negb (users_given users) && username_given (username parts));
    [destruct (username parts)|]; try (split; reflexivity);
    destruct users as [[|? ?]|]; try (split; reflexivity);
    unfold bind, read; cbn [outcome final events];
    destruct (negb (str_in (whoami e) fallback_users)); split; reflexivity.
Qed.

(** [connect], once the address is parsed and the users are chosen, is the
    loop after the two log lines. *)
Lemma connect_unfold (host : string) (users : option (list string)) (e : Ext)
    (parts : ParseResult) (cands : list string) :
  urlparse (pyformat "ssh://%s" [VStr host]) = inr parts ->
  outcome (candidate_users users parts e) = inr cands ->
  let r := connect_loop (hostname parts) (port_or_default (url_port parts)) cands e in
  connect host users e
  = mkRes (outcome r) (final r)
          ([ELog DEBUG (Text (pyformat "Connecting to '%s'" [VStr host]));
            ELog DEBUG (TextOf "users= '%s'" users)] ++ events r).
Proof.
  intros Hp Hc. cbv zeta. unfold connect.
  rewrite (bind_inr _ _ e tt) by reflexivity.
  cbn [log_debug emit outcome final events].
  rewrite (bind_inr _ _ e tt) by reflexivity.
  cbn [log_debug emit outcome final events].
  rewrite Hp.
  rewrite (bind_inr _ _ e parts) by reflexivity.
  cbn [of_sum outcome final events]. cbv zeta.
  destruct (candidate_users_reads users parts e) as [Hf He].
  rewrite (bind_inr _ _ e cands) by exact Hc.
  rewrite Hf, He. reflexivity.
Qed.

Lemma run_commands (self : Connection.t) (cmd : string) (hide : bool)
    (e : Ext) (r : ExecutionResult) :
  outcome (Connection.run self cmd hide e) = inr r ->
  commands_run (events (Connection.run self cmd hide e)) = [cmd].
Proof.
  intro H. destruct (Connection._ssh_control_master self) as [pid|] eqn:Hm.
  - rewrite (run_events self cmd hide e pid Hm).
    destruct (fst (proc_poll pid e)); reflexivity.
  - unfold Connection.run in H. rewrite Hm in H. discriminate H.
Qed.

(** A constructor that returns has run the probe and nothing else. *)
Lemma init_commands (host : option string) (user : string)
    (kw : option (list (string * string))) (port : Z) (e : Ext) (c : Connection.t) :
  outcome (Connection.__init__ host user kw port e) = inr c ->
  commands_run (events (Connection.__init__ host user kw port e)) = ["echo $UID"].
Proof.
  intro H. unfold Connection.__init__ in *. cbv zeta in *.
  unfold commands_run.
  rewrite bind_observed. cbn [log_debug emit outcome final events flat_map command_of app].
  rewrite bind_observed. cbn [read outcome final events flat_map app].
  rewrite bind_observed. cbn [log_debug emit outcome final events flat_map command_of app].
  rewrite bind_observed, Popen_events. cbn [flat_map command_of app].
  apply bind_returns in H as (? & _ & H). cbn [log_debug emit final] in H.
  apply bind_returns in H as (dir & Hdir & H). cbn [read outcome final] in Hdir, H.
  injection Hdir as <-.
  apply bind_returns in H as (? & _ & H). cbn [log_debug emit final] in H.
  apply bind_returns in H as (pid & Hpid & H). rewrite Hpid.
  apply bind_returns in H as (r & Hr & H).
  apply bind_returns in H as (out & Hout & H).
  rewrite bind_observed, Hr.
  fold (commands_run (events (Connection.run
          {| Connection.ssh_host := host; Connection.ssh_port := port;
             Connection.ssh_user := user; Connection._connect_kwargs := kw;
             Connection._control_path := join (cf_remote_dir e) "%C";
             Connection._ssh_control_master := Some pid;
             Connection.needs_sudo := false |} "echo $UID" true
          (final (Popen (Connection.control_master_args host user port
                           (join (cf_remote_dir e) "%C")) e))))).
  rewrite (run_commands _ _ _ _ _ Hr).
  apply of_option_returns in Hout. rewrite Hout. reflexivity.
Qed.

Lemma init_path (host : option string) (user : string)
    (kw : option (list (string * string))) (port : Z) (e : Ext) (c : Connection.t) :
  outcome (Connection.__init__ host user kw port e) = inr c ->
  Connection._control_path c = join (cf_remote_dir e) "%C".
Proof.
  unfold Connection.__init__. cbv zeta. intro H.
  apply bind_returns in H as (? & _ & H). cbn [log_debug emit final] in H.
  apply bind_returns in H as (dir & Hdir & H). cbn [read outcome final] in Hdir, H.
  injection Hdir as <-.
  apply bind_returns in H as (? & _ & H).
  apply bind_returns in H as (pid & _ & H).
  apply bind_returns in H as (r & _ & H).
  apply bind_returns in H as (out & _ & H).
  apply bind_returns in H as (? & _ & H).
  cbn in H. injection H as <-. reflexivity.
Qed.

(** One attempt whose constructor returns: what is left is the verification,
    the run of [whoami] on the connection. *)
Lemma attempt_verifies (host : option string) (port : Z) (user : string)
    (e : Ext) (c : Connection.t) :
  outcome (Connection.__init__ host user (Some (kwargs_of e)) port e) = inr c ->
  let i := Connection.__init__ host user (Some (kwargs_of e)) port e in
  let v := Connection.run c "whoami" true (final i) in
  attempt host port user e
  = mkRes (match outcome v with
           | inl x => inl x
           | inr _ => inr c
           end)
          (final v)
          (ELog DEBUG (Text (pyformat "Attempting ssh: %s@%s:%s"
                               [VStr user; opt_str host; VInt port]))
           :: events i ++ events v).
Proof.
  intro H. cbv zeta. rewrite attempt_unfold. cbv zeta.
  rewrite (bind_inr _ _ e c H). cbn [outcome final events].
  destruct (init_records _ _ _ _ _ _ H) as (Hh & Hu & Hp & _).
  assert (Hc : {| Connection.ssh_host := host; Connection.ssh_port := port;
                  Connection.ssh_user := user;
                  Connection._connect_kwargs := Connection._connect_kwargs c;
                  Connection._control_path := Connection._control_path c;
                  Connection._ssh_control_master := Connection._ssh_control_master c;
                  Connection.needs_sudo := Connection.needs_sudo c |} = c).
  { destruct c. cbn in *. subst. reflexivity. }
  rewrite Hc. unfold bind at 1 2 3. cbn [ret outcome final events].
  destruct (outcome (Connection.run c "whoami" true
                       (final (Connection.__init__ host user (Some (kwargs_of e))
                                 port e))));
    cbn [outcome final events]; rewrite ?app_nil_r; reflexivity.
Qed.

Lemma attempt_fails_early (host : option string) (port : Z) (user : string)
    (e : Ext) (x : exn) :
  outcome (Connection.__init__ host user (Some (kwargs_of e)) port e) = inl x ->
  outcome (attempt host port user e) = inl x.
Proof.
  intro H. rewrite attempt_unfold. cbv zeta. cbn [outcome].
  rewrite (bind_inl _ _ e x H). reflexivity.
Qed.

End Establish.

Section Candidates.
Context {P : Platform}.

Lemma str_in_In (x : string) (l : list string) : str_in x l = true <-> In x l.
Proof.
  unfold str_in. rewrite existsb_exists. split.
  - intros (y & Hy & E). apply String.eqb_eq in E. subst y. exact Hy.
  - intro H. exists x. split; [exact H | apply String.eqb_refl].
Qed.

(** C2.  Called with no list of users ([None] or an empty list) on an address
    that carries no user name, [connect] goes through the fixed fallback order
    Administrator, admin, ubuntu, ec2-user, centos, vagrant, root, with the
    name of the invoking user put first when it is not one of the seven, and
    the order as it is when it is. *)
Theorem connect_fallback_users (host : string) (users : option (list string))
    (e : Ext) (parts : ParseResult) :
  users_given users = false ->
  urlparse (pyformat "ssh://%s" [VStr host]) = inr parts ->
  username_given (username parts) = false ->
  exists cands,
    (In (whoami e) Spec.fallback_order -> cands = Spec.fallback_order)
    /\ (~ In (whoami e) Spec.fallback_order ->
        cands = whoami e :: Spec.fallback_order)
    /\ candidate_users users parts e = mkRes (inr cands) e []
    /\ connect host users e
       = let r := connect_loop (hostname parts)
                    (port_or_default (url_port parts)) cands e in
         mkRes (outcome r) (final r)
               ([ELog DEBUG (Text (pyformat "Connecting to '%s'" [VStr host]));
                 ELog DEBUG (TextOf "users= '%s'" users)] ++ events r).
Proof.
  intros Hu Hp Hn.
  exists (if str_in (whoami e) Spec.fallback_order
          then Spec.fallback_order else whoami e :: Spec.fallback_order).
  assert (Hc : candidate_users users parts e
               = mkRes (inr (if str_in (whoami e) Spec.fallback_order
                             then Spec.fallback_order
                             else whoami e :: Spec.fallback_order)) e []).
  { unfold candidate_users. cbv zeta. rewrite Hn, andb_false_r.
    change fallback_users with Spec.fallback_order.
    destruct users as [[|? ?]|]; try discriminate Hu;
      unfold bind, read, ret; cbn [outcome final events];
      destruct (str_in (whoami e) Spec.fallback_order); reflexivity. }
  split; [|split; [|split]].
  - intro Hin. apply str_in_In in Hin. rewrite Hin. reflexivity.
  - intro Hnin. destruct (str_in (whoami e) Spec.fallback_order) eqn:E;
      [apply str_in_In in E; contradiction | reflexivity].
  - exact Hc.
  - apply connect_unfold; [exact Hp | rewrite Hc; reflexivity].
Qed.

(** C1.  The users before [u] in the list of candidates all fail with an
    execution error, raised by the constructor or by the run of [whoami] that
    verifies the connection; for [u] the constructor returns a connection and
    the run of [whoami] on it returns.  Then [connect] returns that
    connection, in the state the verification leaves; its recorded user is
    [u]; the control masters spawned are, in order, those for the users up to
    [u] and no other, one attempt for each and none for the users after [u];
    and the last two commands sent are the probe of the constructor and
    [whoami]. *)
Theorem connect_first_success (host : string) (users : option (list string))
    (e e1 : Ext) (parts : ParseResult) (pre post : list string) (u : string)
    (evs : list event) (c : Connection.t) (r : ExecutionResult) :
  urlparse (pyformat "ssh://%s" [VStr host]) = inr parts ->
  outcome (candidate_users users parts e) = inr (pre ++ u :: post) ->
  failed_attempts (hostname parts) (port_or_default (url_port parts)) pre e
  = Some (e1, evs) ->
  outcome (Connection.__init__ (hostname parts) u (Some (kwargs_of e1))
             (port_or_default (url_port parts)) e1) = inr c ->
  outcome (Connection.run c "whoami" true
             (final (Connection.__init__ (hostname parts) u (Some (kwargs_of e1))
                       (port_or_default (url_port parts)) e1))) = inr r ->
  outcome (connect host users e) = inr c
  /\ final (connect host users e)
     = final (Connection.run c "whoami" true
                (final (Connection.__init__ (hostname parts) u
                          (Some (kwargs_of e1))
                          (port_or_default (url_port parts)) e1)))
  /\ Connection.ssh_user c = u
  /\ Connection.ssh_host c = hostname parts
  /\ Connection.ssh_port c = port_or_default (url_port parts)
  /\ spawn_targets (events (connect host users e))
     = map (target_of (hostname parts)) (pre ++ [u])
  /\ length (spawn_targets (events (connect host users e))) = S (length pre)
  /\ commands_run (events (connect host users e))
     = commands_run evs ++ ["echo $UID"; "whoami"]
  /\ (forall x e0,
        outcome (Connection.__init__ (hostname parts) x (Some (kwargs_of e0))
                   (port_or_default (url_port parts)) e0) = inl ExecutionError ->
        outcome (attempt (hostname parts) (port_or_default (url_port parts)) x e0)
        = inl ExecutionError)
  /\ (forall x e0 c0,
        outcome (Connection.__init__ (hostname parts) x (Some (kwargs_of e0))
                   (port_or_default (url_port parts)) e0) = inr c0 ->
        outcome (Connection.run c0 "whoami" true
                   (final (Connection.__init__ (hostname parts) x
                             (Some (kwargs_of e0))
                             (port_or_default (url_port parts)) e0)))
        = inl ExecutionError ->
        outcome (attempt (hostname parts) (port_or_default (url_port parts)) x e0)
        = inl ExecutionError).
Proof.
  intros Hp Hc Hf Hi Hv.
  set (h := hostname parts) in *. set (p := port_or_default (url_port parts)) in *.
  pose proof (attempt_verifies h p u e1 c Hi) as Ha. cbv zeta in Ha.
  rewrite Hv in Ha.
  assert (Hok : outcome (attempt h p u e1) = inr c) by (rewrite Ha; reflexivity).
  pose proof (connect_unfold host users e parts _ Hp Hc) as Hcon. cbv zeta in Hcon.
  fold h p in Hcon.
  rewrite (connect_loop_app h p pre (u :: post) e e1 evs Hf) in Hcon.
  rewrite (connect_loop_success h p u post e1 c Hok) in Hcon.
  cbn [outcome final events] in Hcon.
  destruct (attempt_records h p u e1 c Hok) as (Hu & Hh & Hport).
  assert (Ht : spawn_targets (events (connect host users e))
               = map (target_of h) (pre ++ [u])).
  { rewrite Hcon. cbn [events app]. unfold spawn_targets.
    cbn [flat_map spawn_target app]. rewrite flat_map_app.
    change (flat_map spawn_target evs) with (spawn_targets evs).
    change (flat_map spawn_target (events (attempt h p u e1)))
      with (spawn_targets (events (attempt h p u e1))).
    rewrite (failed_attempts_spawn h p pre e e1 evs Hf), attempt_spawns.
    rewrite map_app. reflexivity. }
  split; [rewrite Hcon; exact Hok|].
  split; [rewrite Hcon, Ha; reflexivity|].
  split; [exact Hu|]. split; [exact Hh|]. split; [exact Hport|].
  split; [exact Ht|].
  split; [rewrite Ht, length_map, length_app; cbn; lia|].
  split; [|split].
  - rewrite Hcon, Ha. cbn [events app]. unfold commands_run.
    repeat (rewrite ?flat_map_app; cbn [flat_map command_of app]).
    fold (commands_run (events (Connection.__init__ h u (Some (kwargs_of e1)) p e1))).
    fold (commands_run (events (Connection.run c "whoami" true
            (final (Connection.__init__ h u (Some (kwargs_of e1)) p e1))))).
    rewrite (init_commands _ _ _ _ _ _ Hi), (run_commands _ _ _ _ _ Hv).
    reflexivity.
  - intros x e0 Hx. apply attempt_fails_early. exact Hx.
  - intros x e0 c0 Hx Hw.
    pose proof (attempt_verifies h p x e0 c0 Hx) as Hb. cbv zeta in Hb.
    rewrite Hb, Hw. reflexivity.
Qed.

End Candidates.

(** ** The copy helper *)

Section Copy.
Context {P : Platform}.





(** A note printed unless output is hidden, then the rest. *)
Lemma bind_note {B} (b : bool) (s : string) (k : unit -> M B) (e : Ext) :
  bind (if b then print s else ret tt) k e
  = mkRes (outcome (k tt e)) (final (k tt e))
          ((if b then [EPrint s] else []) ++ events (k tt e)).
Proof. destruct b; unfold bind, print, emit, ret; cbn [outcome final events]; reflexivity. Qed.


Lemma connection_run_commands (c : connection) (cmd : string) (hide : bool)
    (e : Ext) (r : ExecutionResult) :
  outcome (connection_run c cmd hide e) = inr r ->
  commands_run (events (connection_run c cmd hide e)) = [cmd].
Proof.
  destruct c as [l|self]; cbn [connection_run].
  - unfold LocalConnection.run, environ_item, subprocess_run, bind, read,
      emit, call, of_option, ret, raise.
    cbn [outcome final events].
    destruct (environ "HOME" e) as [home|]; cbn [outcome final events];
      [|discriminate].
    destruct (run_shell cmd home true e) as [[x|[[rc out] err]] e1];
      cbn [outcome final events]; [discriminate|]. reflexivity.
  - intro H.
    destruct (Connection._ssh_control_master self) as [pid|] eqn:Hm.
    + rewrite (run_events self cmd hide e pid Hm).
      destruct (fst (proc_poll pid e)); reflexivity.
    + unfold Connection.run in H. rewrite Hm in H. discriminate H.
Qed.

Lemma connection_put_commands (c : connection) (src : string) (hide : bool) :
  silent command_of (connection_put c src hide).
Proof.
  destruct c as [l|self]; cbn [connection_put].
  - unfold LocalConnection.put. unfold_library. cbv zeta. silence.
  - unfold Connection.put. unfold_library. cbv zeta. silence.
Qed.










End Copy.

(** ** Where the process can end *)

Section Exit.
Context {P : Platform}.

Lemma exit_message (host : option string) :
  pyformat "Could not ssh into '%s'" [opt_str host]
  = "Could not ssh into '" +++ str (opt_str host) +++ "'".
Proof. reflexivity. Qed.

Lemma connect_loop_exhausted (host : option string) (port : Z) (users : list string) :
  forall e e1 evs,
    failed_attempts host port users e = Some (e1, evs) ->
    connect_loop host port users e
    = mkRes (inl (SystemExit ("Could not ssh into '" +++ str (opt_str host) +++ "'")))
            e1 evs.
Proof.
  intros e e1 evs H.
  pose proof (connect_loop_app host port users [] e e1 evs H) as L.
  rewrite app_nil_r in L. rewrite L. cbn [connect_loop].
  unfold sys_exit, raise. cbn [outcome final events].
  rewrite app_nil_r, exit_message. reflexivity.
Qed.

Lemma candidate_users_total (users : option (list string)) (parts : ParseResult)
    (e : Ext) :
  exists cands, outcome (candidate_users users parts e) = inr cands.
Proof.
  unfold candidate_users. cbv zeta.
  destruct (negb (users_given users) && username_given (username parts));
    [destruct (username parts)|]; try (eexists; reflexivity);
    destruct users as [[|? ?]|]; try (eexists; reflexivity);
    unfold bind, read; cbn [outcome final events];
    destruct (negb (str_in (whoami e) fallback_users)); eexists; reflexivity.
Qed.

Section NoExit.
Hypothesis H : platform_never_exits.

Lemma rr_poll (pid : nat) : returns_or_raises (poll pid).
Proof.
  unfold poll. apply rr_bind; [apply rr_emit|]. intros _.
  intros e msg. unfold call. destruct (proc_poll pid e). discriminate.
Qed.

Ltac platform_call :=
  apply rr_call;
  first [ apply (ne_execute H) | apply (ne_put H) | apply (ne_popen H)
        | apply (ne_signal H) | apply (ne_shell H) | apply (ne_copy H) ].

Ltac settle :=
  repeat first [ apply rr_poll | platform_call | no_exit ].

Lemma rr_local_run (cmd : string) (hide : bool) :
  returns_or_raises (LocalConnection.run cmd hide).
Proof. unfold LocalConnection.run. unfold_library. cbv zeta. settle. Qed.

Lemma rr_local_init : returns_or_raises LocalConnection.__init__.
Proof.
  unfold LocalConnection.__init__.
  apply rr_bind; [settle|]. intro name.
  apply rr_bind; [apply rr_local_run|]. settle.
Qed.

Lemma rr_local_put (src : string) (hide : bool) :
  returns_or_raises (LocalConnection.put src hide).
Proof. unfold LocalConnection.put. unfold_library. cbv zeta. settle. Qed.

Lemma rr_run (self : Connection.t) (cmd : string) (hide : bool) :
  returns_or_raises (Connection.run self cmd hide).
Proof.
  unfold Connection.run. cbv zeta.
  apply rr_bind; [settle|]. intro pid.
  apply rr_bind; [apply rr_poll|]. intro st.
  unfold_library. settle.
Qed.

Lemma rr_put (self : Connection.t) (src : string) (hide : bool) :
  returns_or_raises (Connection.put self src hide).
Proof. unfold Connection.put. unfold_library. cbv zeta. settle. Qed.

Lemma rr_init (host : option string) (user : string)
    (kw : option (list (string * string))) (port : Z) :
  returns_or_raises (Connection.__init__ host user kw port).
Proof.
  unfold Connection.__init__. cbv zeta.
  apply rr_bind; [unfold log_debug; settle|]. intros _.
  apply rr_bind; [settle|]. intro dir.
  apply rr_bind; [unfold log_debug; settle|]. intros _.
  apply rr_bind; [unfold Popen; settle|]. intro pid.
  apply rr_bind; [apply rr_run|]. intro r.
  unfold log_debug. settle.
Qed.

Lemma rr_del (self : Connection.t) : returns_or_raises (Connection.__del__ self).
Proof.
  unfold Connection.__del__.
  destruct (Connection._ssh_control_master self) as [pid|]; [|apply rr_ret].
  apply rr_bind; [apply rr_poll|]. intro st.
  unfold send_signal. settle.
Qed.

Lemma rr_attempt (host : option string) (port : Z) (user : string) :
  returns_or_raises (attempt host port user).
Proof.
  unfold attempt.
  apply rr_bind; [unfold log_debug; settle|]. intros _.
  apply rr_bind; [unfold getenv; settle|]. intro key.
  apply rr_bind; [settle|]. intro kw.
  apply rr_bind; [apply rr_init|]. intro c. cbv zeta.
  apply rr_bind; [apply rr_run | settle].
Qed.

Lemma rr_connection_run (c : connection) (cmd : string) (hide : bool) :
  returns_or_raises (connection_run c cmd hide).
Proof. destruct c; [apply rr_local_run | apply rr_run]. Qed.

Lemma rr_connection_put (c : connection) (src : string) (hide : bool) :
  returns_or_raises (connection_put c src hide).
Proof.
  destruct c; cbn [connection_put]; [apply rr_local_put|].
  apply rr_bind; [apply rr_put | settle].
Qed.

Lemma rr_report_failure (fmt cmd : string) (r : ExecutionResult) (errors : bool) :
  returns_or_raises (report_failure fmt cmd r errors).
Proof. unfold report_failure. unfold_library. cbv zeta. settle. Qed.

Lemma rr_ssh_cmd (c : option connection) (cmd : string) (errors : bool) :
  returns_or_raises (ssh_cmd c cmd errors).
Proof.
  unfold ssh_cmd.
  apply rr_bind; [settle|]. intro c'.
  apply rr_bind; [apply rr_connection_run|]. intro r.
  destruct (retcode r =? 0)%Z; [|apply rr_report_failure].
  unfold log_debug. settle.
Qed.

Lemma rr_ssh_sudo (c : option connection) (cmd : string) (errors : bool) :
  returns_or_raises (ssh_sudo c cmd errors).
Proof.
  unfold ssh_sudo.
  apply rr_bind; [settle|]. intro c'.
  apply rr_bind.
  { destruct (connection_needs_sudo c'); cbv zeta; apply rr_connection_run. }
  intro r.
  destruct (retcode r =? 0)%Z; [|apply rr_report_failure].
  unfold log_debug. settle.
Qed.

Lemma rr_scp_on (file remote : string) (c : connection) (rename : option string)
    (hide : bool) :
  returns_or_raises (scp_on file remote c rename hide).
Proof.
  unfold scp_on.
  apply rr_bind; [unfold print; settle|]. intros _.
  apply rr_bind; [apply rr_connection_put|]. intros _.
  destruct (rename_given rename) as [r|]; [|apply rr_ret]. cbv zeta.
  destruct (basename file =? r)%string; [apply rr_ret|].
  apply rr_bind; [unfold print; settle|]. intros _.
  apply rr_bind; [apply rr_ssh_cmd | settle].
Qed.

(** The loop ends the process only after every user has failed. *)
Lemma connect_loop_exits (host : option string) (port : Z) (users : list string) :
  forall e msg,
    outcome (connect_loop host port users e) = inl (SystemExit msg) ->
    exists e1 evs, failed_attempts host port users e = Some (e1, evs).
Proof.
  induction users as [|u rest IH]; intros e msg E.
  - exists e, []. reflexivity.
  - cbn [connect_loop failed_attempts] in *. cbv zeta. unfold try_except in E.
    pose proof (rr_attempt host port u e) as Hrr.
    remember (attempt host port u e) as a eqn:Ha.
    destruct (outcome a) as [x|c] eqn:O.
    + destruct x; cbn [is_ExecutionError] in E; rewrite ?O in E;
        try discriminate E.
      * cbn [outcome] in E. destruct (IH _ _ E) as (e1 & evs & F).
        rewrite F. eexists _, _. reflexivity.
      * injection E as ->. exfalso. exact (Hrr _ eq_refl).
    + rewrite O in E. discriminate E.
Qed.

Lemma connect_exits (host : string) (users : option (list string)) (e : Ext)
    (msg : string) :
  outcome (connect host users e) = inl (SystemExit msg) ->
  exists parts cands e1 evs,
    urlparse (pyformat "ssh://%s" [VStr host]) = inr parts
    /\ outcome (candidate_users users parts e) = inr cands
    /\ failed_attempts (hostname parts) (port_or_default (url_port parts)) cands e
       = Some (e1, evs)
    /\ msg = "Could not ssh into '" +++ str (opt_str (hostname parts)) +++ "'".
Proof.
  intro E.
  destruct (urlparse (pyformat "ssh://%s" [VStr host])) as [x|parts] eqn:Hp.
  - exfalso. unfold connect in E. rewrite Hp in E.
    unfold bind, log_debug, emit, of_sum in E. cbn [outcome final events] in E.
    injection E as ->. exact (ne_urlparse H _ _ Hp).
  - destruct (candidate_users_total users parts e) as (cands & Hc).
    pose proof (connect_unfold host users e parts cands Hp Hc) as U.
    cbv zeta in U. rewrite U in E. cbn [outcome] in E.
    destruct (connect_loop_exits _ _ _ _ _ E) as (e1 & evs & F).
    exists parts, cands, e1, evs. repeat split; try assumption.
    rewrite (connect_loop_exhausted _ _ _ _ _ _ F) in E.
    cbn [outcome] in E. injection E as <-. reflexivity.
Qed.

Lemma scp_exits (file remote : string) (rename : option string) (hide : bool)
    (e : Ext) (msg : string) :
  outcome (scp file remote None rename hide e) = inl (SystemExit msg) ->
  outcome (connect remote None e) = inl (SystemExit msg).
Proof.
  cbn [scp]. intro E.
  destruct (outcome (connect remote None e)) as [x|c] eqn:O.
  - rewrite (bind_inl _ _ e x O) in E. cbn [outcome] in E.
    injection E as ->. reflexivity.
  - exfalso. rewrite (bind_inr _ _ e c O) in E. cbn [outcome] in E.
    assert (R : returns_or_raises
                  (Connection.with_ c (fun connection =>
                     scp_on file remote (Remote connection) rename hide) ;;
                   ret 0%Z)).
    { apply rr_bind; [|intro; apply rr_ret].
      apply rr_with. intro c'. apply rr_scp_on. }
    exact (R _ _ E).
Qed.

End NoExit.

(** C3.  When every candidate fails with an execution error, [connect] does
    not return: it raises [SystemExit] with the message [Could not ssh into]
    followed by the host name in quotes.  On a platform whose capabilities do
    not themselves end the process, that is the only exit of the layer:
    [connect] exits only after every candidate has failed, [scp] only through
    [connect], and no method of the two connection classes, nor [ssh_cmd],
    [ssh_sudo] or [scp] on a connection, exits. *)
Theorem connect_exhausted :
  (forall (host : string) (users : option (list string)) (e e1 : Ext)
          (parts : ParseResult) (cands : list string) (evs : list event),
      urlparse (pyformat "ssh://%s" [VStr host]) = inr parts ->
      outcome (candidate_users users parts e) = inr cands ->
      failed_attempts (hostname parts) (port_or_default (url_port parts)) cands e
      = Some (e1, evs) ->
      outcome (connect host users e)
      = inl (SystemExit ("Could not ssh into '"
                         +++ str (opt_str (hostname parts)) +++ "'")))
  /\ (platform_never_exits ->
      (forall (host : string) (users : option (list string)) (e : Ext) (msg : string),
          outcome (connect host users e) = inl (SystemExit msg) ->
          exists parts cands e1 evs,
            urlparse (pyformat "ssh://%s" [VStr host]) = inr parts
            /\ outcome (candidate_users users parts e) = inr cands
            /\ failed_attempts (hostname parts)
                 (port_or_default (url_port parts)) cands e = Some (e1, evs)
            /\ msg = "Could not ssh into '"
                     +++ str (opt_str (hostname parts)) +++ "'")
      /\ (forall file remote rename hide e msg,
            outcome (scp file remote None rename hide e) = inl (SystemExit msg) ->
            outcome (connect remote None e) = inl (SystemExit msg))
      /\ (forall file remote c rename hide,
            returns_or_raises (scp file remote (Some c) rename hide))
      /\ (forall c cmd errors, returns_or_raises (ssh_cmd c cmd errors))
      /\ (forall c cmd errors, returns_or_raises (ssh_sudo c cmd errors))
      /\ (forall cmd hide, returns_or_raises (LocalConnection.run cmd hide))
      /\ (forall src hide, returns_or_raises (LocalConnection.put src hide))
      /\ returns_or_raises LocalConnection.__init__
      /\ (forall host user kw port,
            returns_or_raises (Connection.__init__ host user kw port))
      /\ (forall self cmd hide, returns_or_raises (Connection.run self cmd hide))
      /\ (forall self src hide, returns_or_raises (Connection.put self src hide))
      /\ (forall self, returns_or_raises (Connection.__del__ self))
      /\ (forall self, returns_or_raises (Connection.__exit__ self))).
Proof.
  split.
  - intros host users e e1 parts cands evs Hp Hc Hf.
    pose proof (connect_unfold host users e parts cands Hp Hc) as U.
    cbv zeta in U. rewrite U. cbn [outcome].
    rewrite (connect_loop_exhausted _ _ _ _ _ _ Hf). reflexivity.
  - intro H. repeat split.
    + intros. apply connect_exits; assumption.
    + intros file remote rename hide e msg. apply scp_exits. exact H.
    + intros. cbn [scp]. apply rr_scp_on. exact H.
    + intros. apply rr_ssh_cmd. exact H.
    + intros. apply rr_ssh_sudo. exact H.
    + intros. apply rr_local_run. exact H.
    + intros. apply rr_local_put. exact H.
    + apply rr_local_init. exact H.
    + intros. apply rr_init. exact H.
    + intros. apply rr_run. exact H.
    + intros. apply rr_put. exact H.
    + intros. apply rr_del. exact H.
    + intros. apply rr_ret.
Qed.

End Exit.

(** * Runs on the concrete platform *)

#[local] Existing Instance Scenario.platform.

Lemma scenario_never_exits : @platform_never_exits Scenario.platform.
Proof.
  constructor; unfold never_exits; cbn.
  - intros hs c b e msg. unfold Scenario.execute.
    destruct (forallb _ hs); discriminate.
  - intros. discriminate.
  - intros. discriminate.
  - intros. discriminate.
  - intros. discriminate.
  - intros. discriminate.
  - intros url msg. unfold Scenario.parse.
    repeat match goal with
           | |- context [match ?x with _ => _ end] => destruct x
           end; discriminate.
Qed.

(** The host lets [ubuntu] in, the fourth candidate of the user [alice]; the
    three before pass the constructor and are turned away at [whoami]. *)
Lemma connect_first_success_witness :
  exists c,
    outcome (connect (P := Edge.guarded) "web1" None Scenario.w0) = inr c
    /\ Connection.ssh_user c = "ubuntu"
    /\ spawn_targets (events (connect (P := Edge.guarded) "web1" None Scenario.w0))
       = ["alice@web1"; "Administrator@web1"; "admin@web1"; "ubuntu@web1"]
    /\ length (spawn_targets
                 (events (connect (P := Edge.guarded) "web1" None Scenario.w0))) = 4
    /\ commands_run (events (connect (P := Edge.guarded) "web1" None Scenario.w0))
       = ["echo $UID"; "whoami"; "echo $UID"; "whoami"; "echo $UID"; "whoami";
          "echo $UID"; "whoami"]
    /\ outcome (attempt (P := Edge.guarded) (Some "web1") 22 "alice" Scenario.w0)
       = inl ExecutionError.
Proof.
  let f := eval vm_compute in
        (failed_attempts (P := Edge.guarded) (Some "web1") 22
           ["alice"; "Administrator"; "admin"] Scenario.w0) in
  match f with
  | Some (?e1, ?evs) =>
      let i := eval vm_compute in
            (Connection.__init__ (P := Edge.guarded) (Some "web1") "ubuntu"
               (Some (kwargs_of (P := Edge.guarded) e1)) 22 e1) in
      match i with
      | {| outcome := inr ?c; final := ?e2; events := _ |} =>
          let v := eval vm_compute in
                (outcome (Connection.run (P := Edge.guarded) c "whoami" true e2)) in
          match v with
          | inr ?r =>
              destruct (connect_first_success (P := Edge.guarded)
                          "web1" None Scenario.w0 e1 Scenario.web1
                          ["alice"; "Administrator"; "admin"]
                          ["ec2-user"; "centos"; "vagrant"; "root"] "ubuntu" evs c r)
                as (H1 & _ & H3 & _ & _ & H6 & H7 & H8 & _ & H10);
              [vm_compute; reflexivity | vm_compute; reflexivity
              | vm_compute; reflexivity | vm_compute; reflexivity
              | vm_compute; reflexivity |];
              exists c
          end
      end
  end.
  split; [exact H1|]. split; [exact H3|]. split; [exact H6|]. split; [exact H7|].
  split; [rewrite H8; vm_compute; reflexivity|].
  let i := eval vm_compute in
        (outcome (Connection.__init__ (P := Edge.guarded) (Some "web1") "alice"
                    (Some (kwargs_of (P := Edge.guarded) Scenario.w0)) 22
                    Scenario.w0)) in
  match i with
  | inr ?c0 => apply (H10 "alice" Scenario.w0 c0); vm_compute; reflexivity
  end.
Defined.

Lemma connect_fallback_users_witness :
  users_given None = false
  /\ username_given (username Scenario.web1) = false
  /\ candidate_users None Scenario.web1 Scenario.w0
     = mkRes (inr ["alice"; "Administrator"; "admin"; "ubuntu"; "ec2-user";
                   "centos"; "vagrant"; "root"]) Scenario.w0 []
  /\ candidate_users (Some []) Scenario.web1 Scenario.w_root
     = mkRes (inr ["Administrator"; "admin"; "ubuntu"; "ec2-user";
                   "centos"; "vagrant"; "root"]) Scenario.w_root [].
Proof.
  split; [reflexivity|]. split; [reflexivity|]. split.
  - destruct (connect_fallback_users (P := Scenario.platform) "web1" None Scenario.w0 Scenario.web1
                eq_refl eq_refl eq_refl) as (cands & _ & Hout & Hc & _).
    rewrite Hc. rewrite Hout; [reflexivity|].
    vm_compute. intuition discriminate.
  - destruct (connect_fallback_users (P := Scenario.platform) "web1" (Some []) Scenario.w_root Scenario.web1
                eq_refl eq_refl eq_refl) as (cands & Hin & _ & Hc & _).
    rewrite Hc. rewrite Hin; [reflexivity|].
    vm_compute. tauto.
Defined.

Lemma connect_exhausted_witness :
  outcome (connect "web1" None Scenario.w_closed)
  = inl (SystemExit "Could not ssh into 'web1'")
  /\ (forall c cmd errors, returns_or_raises (ssh_cmd c cmd errors))
  /\ (forall self cmd hide, returns_or_raises (Connection.run self cmd hide)).
Proof.
  destruct (connect_exhausted (P := Scenario.platform)) as [Ha Hb].
  split.
  - let r := eval vm_compute in
          (failed_attempts (P := Scenario.platform) (Some "web1") 22
             ["alice"; "Administrator"; "admin"; "ubuntu"; "ec2-user";
              "centos"; "vagrant"; "root"] Scenario.w_closed) in
    match r with
    | Some (?e1, ?evs) =>
        apply (Ha "web1" None Scenario.w_closed e1 Scenario.web1
                 ["alice"; "Administrator"; "admin"; "ubuntu"; "ec2-user";
                  "centos"; "vagrant"; "root"] evs);
        vm_compute; reflexivity
    end.
  - destruct (Hb scenario_never_exits)
      as (_ & _ & _ & Hcmd & _ & _ & _ & _ & _ & Hrun & _).
    split; [exact Hcmd | exact Hrun].
Defined.

(** [ssh_cmd] on a command that succeeds and on one that fails. *)
Lemma ssh_cmd_result_witness :
  outcome (connection_run (Remote (Scenario.conn true)) "cat motd" true Scenario.w_motd)
  = inr Scenario.motd
  /\ outcome (ssh_cmd (Some (Remote (Scenario.conn true))) "cat motd" false
                Scenario.w_motd) = inr (Some "ok")
  /\ outcome (ssh_cmd (Some (Remote (Scenario.conn true))) "test -f x" true
                Scenario.w_motd) = inr None.
Proof.
  split; [reflexivity|]. split.
  - exact (proj1 (ssh_cmd_result (P := Scenario.platform)
                    (Remote (Scenario.conn true)) "cat motd" false Scenario.w_motd
                    Scenario.motd eq_refl)
             (String LF ("ok" +++ String CR (chr LF))) eq_refl eq_refl).
  - apply (proj2 (ssh_cmd_result (P := Scenario.platform)
                    (Remote (Scenario.conn true)) "test -f x" true Scenario.w_motd
                    Scenario.missing eq_refl)).
    discriminate.
Defined.

(** C4 as stated fails: the output of [cat motd] starts with a newline, which
    [ssh_cmd] strips as well, while stripping trailing newlines only keeps
    it. *)
Lemma ssh_cmd_strips_trailing_only_fails :
  outcome (connection_run (Remote (Scenario.conn true)) "cat motd" true Scenario.w_motd)
  = inr Scenario.motd
  /\ retcode Scenario.motd = 0%Z
  /\ stdout Scenario.motd = Some (String LF ("ok" +++ String CR (chr LF)))
  /\ outcome (ssh_cmd (Some (Remote (Scenario.conn true))) "cat motd" false
                Scenario.w_motd)
     <> inr (Some (Spec.strip_trailing_newlines
                     (Spec.crlf_to_lf (String LF ("ok" +++ String CR (chr LF)))))).
Proof.
  split; [reflexivity|]. split; [reflexivity|]. split; [reflexivity|].
  vm_compute. discriminate.
Qed.

(** [ssh_sudo] on a connection that needs elevation and on one that does
    not. *)
Lemma ssh_sudo_result_witness :
  commands_run (events (ssh_sudo (Some (Remote (Scenario.conn true))) "cat motd"
                          false Scenario.w_motd))
  = ["sudo bash -c " +++ chr DQ +++ "cat motd" +++ chr DQ]
  /\ commands_run (events (ssh_sudo (Some (Remote (Scenario.conn false))) "cat motd"
                             false Scenario.w_motd))
     = ["cat motd"]
  /\ outcome (ssh_sudo (Some (Remote (Scenario.conn false))) "cat motd" false
                Scenario.w_motd) = inr (Some ("ok" +++ chr CR))
  /\ outcome (ssh_sudo (Some (Remote (Scenario.conn false))) "test -f x" false
                Scenario.w_motd) = inr None.
Proof.
  split; [|split; [|split]].
  - destruct (ssh_sudo_result (P := Scenario.platform)
                (Remote (Scenario.conn true)) "cat motd" false Scenario.w_motd
                {| command := "sudo bash -c " +++ chr DQ +++ "cat motd" +++ chr DQ;
                   retcode := 0;
                   stdout := Some ("1000" +++ chr LF);
                   stderr := Some EmptyString |} eq_refl)
      as ((tail & Hev & Ht) & _ & _).
    rewrite Hev. unfold commands_run in *. rewrite flat_map_app, Ht. reflexivity.
  - destruct (ssh_sudo_result (P := Scenario.platform)
                (Remote (Scenario.conn false)) "cat motd" false Scenario.w_motd
                Scenario.motd eq_refl)
      as ((tail & Hev & Ht) & _ & _).
    rewrite Hev. unfold commands_run in *. rewrite flat_map_app, Ht. reflexivity.
  - exact (proj1 (proj2 (ssh_sudo_result (P := Scenario.platform)
                    (Remote (Scenario.conn false)) "cat motd" false Scenario.w_motd
                    Scenario.motd eq_refl))
             (String LF ("ok" +++ String CR (chr LF))) eq_refl eq_refl).
  - apply (proj2 (proj2 (ssh_sudo_result (P := Scenario.platform)
                    (Remote (Scenario.conn false)) "test -f x" false Scenario.w_motd
                    Scenario.missing eq_refl))).
    discriminate.
Defined.

(** C5 as stated fails on the same output: [ssh_sudo] strips the leading
    newline too. *)
Lemma ssh_sudo_strips_trailing_only_fails :
  connection_needs_sudo (Remote (Scenario.conn false)) = false
  /\ outcome (connection_run (Remote (Scenario.conn false)) "cat motd" true
                Scenario.w_motd) = inr Scenario.motd
  /\ retcode Scenario.motd = 0%Z
  /\ stdout Scenario.motd = Some (String LF ("ok" +++ String CR (chr LF)))
  /\ outcome (ssh_sudo (Some (Remote (Scenario.conn false))) "cat motd" false
                Scenario.w_motd)
     <> inr (Some (Spec.strip_trailing_newlines
                     (String LF ("ok" +++ String CR (chr LF))))).
Proof.
  split; [reflexivity|]. split; [reflexivity|]. split; [reflexivity|].
  split; [reflexivity|]. vm_compute. discriminate.
Qed.

(** [run] with the control master 7 running, and with it gone: the command
    goes to the engine and its result comes back in both cases. *)
Lemma run_control_path_witness :
  Connection._ssh_control_master (Scenario.conn true) = Some 7
  /\ (exists tail note,
        tail = ["-oControlPath=/home/alice/.cfengine/cf-remote/%C"]
        /\ events (Connection.run (Scenario.conn true) "whoami" true Scenario.w_motd)
           = [EPoll 7] ++ map (ELog DEBUG) note
             ++ [EExecute [{| host_name := Some "web1"; user := "ubuntu"; port := 22;
                              extra_ssh_args := Some (["-i"; "/keys/id"] ++ tail) |}]
                          "whoami" false])
  /\ (exists tail note,
        tail = []
        /\ events (Connection.run (Scenario.conn true) "whoami" true Scenario.w0)
           = [EPoll 7] ++ map (ELog DEBUG) note
             ++ [EExecute [{| host_name := Some "web1"; user := "ubuntu"; port := 22;
                              extra_ssh_args := Some (["-i"; "/keys/id"] ++ tail) |}]
                          "whoami" false]
        /\ outcome (Connection.run (Scenario.conn true) "whoami" true Scenario.w0)
           = inr {| command := "whoami"; retcode := 0;
                    stdout := Some ("1000" +++ chr LF);
                    stderr := Some EmptyString |}
        /\ final (Connection.run (Scenario.conn true) "whoami" true Scenario.w0)
           = Scenario.w0).
Proof.
  split; [reflexivity|]. split.
  - destruct (run_control_path (P := Scenario.platform) (Scenario.conn true)
                "whoami" true Scenario.w_motd 7 eq_refl)
      as (tail & note & Halive & _ & Hev & _).
    exists tail, note. split; [|exact Hev].
    rewrite (proj2 Halive eq_refl). reflexivity.
  - destruct (run_control_path (P := Scenario.platform) (Scenario.conn true)
                "whoami" true Scenario.w0 7 eq_refl)
      as (tail & note & _ & Hdead & Hev & Ho & Hf).
    assert (Ht : tail = []) by (apply (proj2 Hdead); discriminate).
    exists tail, note. split; [exact Ht|]. split; [exact Hev|].
    rewrite Ho, Hf, Ht. split; reflexivity.
Defined.


(** The local [run] of a command whose output ends in CR LF, and the remote
    [run] of the same command. *)
Lemma run_result_witness :
  environ "HOME" Scenario.w_motd = Some "/home/alice"
  /\ outcome (LocalConnection.run "cat motd" true Scenario.w_motd)
     = inr {| command := "cat motd"; retcode := 0;
              stdout := Some (String LF ("ok" +++ chr LF));
              stderr := None |}
  /\ outcome (Connection.run (Scenario.conn true) "cat motd" true Scenario.w_motd)
     = inr Scenario.motd.
Proof.
  split; [reflexivity|]. split.
  - apply (proj1 (run_result (P := Scenario.platform)) "cat motd" true
             Scenario.w_motd Scenario.w_motd "/home/alice"
             (String LF ("ok" +++ String CR (chr LF))) EmptyString 0%Z);
      reflexivity.
  - apply (proj2 (proj2 (run_result (P := Scenario.platform)))
             (Scenario.conn true) "cat motd" true Scenario.w_motd 7 Scenario.motd
             eq_refl).
    eexists _, _. split; [reflexivity|]. split; reflexivity.
Defined.

(** C8 as stated fails: the result of the local [run] has no [stderr]. *)
Lemma local_run_stderr_absent :
  exists r,
    outcome (LocalConnection.run "cat motd" true Scenario.w_motd) = inr r
    /\ retcode r = 0%Z
    /\ stderr r = None
    /\ ~ (exists s, stderr r = Some s).
Proof.
  eexists. split; [vm_compute; reflexivity|].
  split; [reflexivity|]. split; [reflexivity|].
  intros [s Hs]. discriminate Hs.
Qed.

(** C9 on the code.  [__exit__] does nothing, so leaving a [with] block polls
    nothing and signals nothing, whether the body ends or raises: the control
    master 7 is still running afterwards.  Only the finaliser [__del__], which
    no statement of the file calls, signals it. *)
Theorem exit_releases_nothing :
  (forall (P : Platform) (self : Connection.t) (e : Ext),
      Connection.__exit__ self e = mkRes (inr tt) e [])
  /\ (forall (P : Platform) (A : Type) (self : Connection.t)
             (body : Connection.t -> M A) (e : Ext),
        outcome (Connection.with_ self body e) = outcome (body self e)
        /\ final (Connection.with_ self body e) = final (body self e)
        /\ events (Connection.with_ self body e) = events (body self e))
  /\ (let r := Connection.with_ (Scenario.conn true)
                 (fun c => ssh_cmd (Some (Remote c)) "cat motd" false)
                 Scenario.w_motd in
      outcome r = inr (Some "ok")
      /\ signals_sent (events r) = []
      /\ Scenario.running (final r) = [7])
  /\ (let r := Connection.with_ Scenario.stranger
                 (fun c => ssh_cmd (Some (Remote c)) "cat motd" false)
                 Scenario.w_motd in
      outcome r = inl ExecutionError
      /\ signals_sent (events r) = []
      /\ Scenario.running (final r) = [7])
  /\ (let r := Connection.__del__ (Scenario.conn true) Scenario.w_motd in
      signals_sent (events r) = [(7, SIGTERM)]
      /\ Scenario.running (final r) = []).
Proof.
  split; [reflexivity|]. split.
  - intros P A self body e.
    unfold Connection.with_, Connection.__enter__, Connection.__exit__, bind, ret.
    cbn [outcome final events app]. rewrite app_nil_r.
    repeat split.
  - repeat split; vm_compute; reflexivity.
Qed.

(** * Further properties of the code *)

(** ** The local connection *)

Section LocalFacts.
Context {P : Platform}.

Lemma mem_basename (p : string) : mem SLASH (basename p) = false.
Proof.
  induction p as [|c r IH]; [reflexivity|].
  cbn [basename]. destruct (mem SLASH r) eqn:M; [exact IH|].
  destruct (Ascii.eqb c SLASH) eqn:E; [exact M|].
  cbn [mem]. rewrite Ascii.eqb_sym, E, M. reflexivity.
Qed.

Lemma basename_plain (b : string) : mem SLASH b = false -> basename b = b.
Proof.
  destruct b as [|c r]; [reflexivity|]. cbn [mem basename].
  intro H. apply orb_false_iff in H as [Hc Hr].
  rewrite Hr, Ascii.eqb_sym, Hc. reflexivity.
Qed.

Lemma mem_append (c : ascii) (a b : string) :
  mem c (a +++ b) = mem c a || mem c b.
Proof.
  induction a as [|d r IH]; [reflexivity|].
  cbn [String.append mem]. rewrite IH, orb_assoc. reflexivity.
Qed.

Lemma basename_after_slash (a b : string) :
  mem SLASH b = false -> basename (a +++ String SLASH b) = b.
Proof.
  intro Hb. induction a as [|c r IH].
  - cbn [String.append basename]. rewrite Hb, Ascii.eqb_refl. reflexivity.
  - cbn [String.append basename]. rewrite mem_append. cbn [mem].
    rewrite Ascii.eqb_refl, orb_true_r. exact IH.
Qed.

Lemma append_assoc (a b c : string) : (a +++ b) +++ c = a +++ b +++ c.
Proof.
  induction a as [|d r IH]; [reflexivity|].
  cbn [String.append]. rewrite IH. reflexivity.
Qed.

Lemma ends_with_slash_split (a : string) :
  ends_with_slash a = true -> exists a', a = a' +++ chr SLASH.
Proof.
  unfold ends_with_slash.
  induction a as [|c r IH]; [discriminate|].
  cbn [String.length]. destruct r as [|d r'].
  - cbn [get]. intro E. apply Ascii.eqb_eq in E. subst c. exists EmptyString. reflexivity.
  - cbn [String.length get] in *. intro E.
    destruct (IH E) as [a' Ha]. exists (String c a'). cbn [String.append].
    rewrite <- Ha. reflexivity.
Qed.

(** [os.path.join(home, basename(src))] names a file with the base name of
    [src]. *)
Lemma basename_join (home src : string) :
  basename (join home (basename src)) = basename src.
Proof.
  pose proof (mem_basename src) as Hb. set (b := basename src) in *.
  unfold join.
  assert (Hp : prefix (chr SLASH) b = false).
  { destruct b as [|c r]; [reflexivity|]. unfold chr. cbn [prefix].
    cbn [mem] in Hb. apply orb_false_iff in Hb as [Hc _].
    destruct (ascii_dec SLASH c) as [<-|N]; [|reflexivity].
    rewrite Ascii.eqb_refl in Hc. discriminate Hc. }
  rewrite Hp.
  destruct (String.length home =? 0)%nat eqn:L.
  - apply Nat.eqb_eq in L. destruct home; [|discriminate L].
    cbn [orb String.append]. apply basename_plain. exact Hb.
  - cbn [orb]. destruct (ends_with_slash home) eqn:E.
    + destruct (ends_with_slash_split home E) as [a' ->].
      rewrite append_assoc. apply basename_after_slash. exact Hb.
    + apply basename_after_slash. exact Hb.
Qed.

(** X1.  [LocalConnection.put] copies the file into the home directory under
    its own base name; when the absolute source is that very path it copies
    nothing and prints nothing; otherwise it makes one copy, announced by one
    printed line unless [hide] is set. *)
Theorem local_put_copies (src : string) (hide : bool) (e : Ext) (home : string) :
  environ "HOME" e = Some home ->
  basename (join home (basename src)) = basename src
  /\ (abspath src e = join home (basename src) ->
      LocalConnection.put src hide e = mkRes (inr tt) e [])
  /\ (abspath src e <> join home (basename src) ->
      events (LocalConnection.put src hide e)
      = (if hide then []
         else [EPrint ("Local copy: '" +++ abspath src e +++ "' -> '"
                       +++ join home (basename src) +++ "'")])
        ++ [ECopy (abspath src e) (join home (basename src))]).
Proof.
  intro Hh. split; [apply basename_join|].
  unfold LocalConnection.put, environ_item. cbv zeta.
  assert (Hstep : forall k : string -> M unit,
             bind (v <- read (environ "HOME") ;; of_option KeyError v) k e
             = k home e).
  { intro k. unfold bind, read, of_option. cbn [outcome final events].
    rewrite Hh. cbn [ret outcome final events app].
    destruct (k home e); reflexivity. }
  rewrite Hstep.
  rewrite (bind_inr _ _ e (abspath src e)) by reflexivity.
  cbn [read outcome final events app]. split.
  - intro Heq. rewrite Heq, String.eqb_refl. reflexivity.
  - intro Hne. rewrite (proj2 (String.eqb_neq _ _) Hne). cbn [negb].
    unfold copy, print, bind, emit, call. cbn [outcome final events app].
    destruct hide; cbn [negb ret outcome final events app];
      destruct (shutil_copy (abspath src e) (join home (basename src)) e);
      reflexivity.
Qed.

(** X2.  Without [HOME] in the environment the local connection raises
    [KeyError] from [run], [put] and its constructor, before any shell is
    started or file copied; a command dispatched on a local connection fails
    the same way. *)
Theorem local_home_missing (cmd src : string) (hide errors : bool) (e : Ext)
    (l : LocalConnection.t) :
  environ "HOME" e = None ->
  LocalConnection.run cmd hide e = mkRes (inl KeyError) e []
  /\ LocalConnection.put src hide e = mkRes (inl KeyError) e []
  /\ LocalConnection.__init__ e = mkRes (inl KeyError) e []
  /\ ssh_cmd (Some (Local l)) cmd errors e = mkRes (inl KeyError) e [].
Proof.
  intro Hh.
  assert (Hstep : forall A (k : string -> M A),
             bind (v <- read (environ "HOME") ;; of_option KeyError v) k e
             = mkRes (inl KeyError) e []).
  { intros A k. unfold bind, read, of_option. cbn [outcome final events].
    rewrite Hh. reflexivity. }
  assert (Hrun : forall c h, LocalConnection.run c h e = mkRes (inl KeyError) e []).
  { intros c h. unfold LocalConnection.run, environ_item. apply Hstep. }
  repeat split.
  - apply Hrun.
  - unfold LocalConnection.put, environ_item. apply Hstep.
  - unfold LocalConnection.__init__.
    rewrite (bind_inr _ _ e (pw_name e)) by reflexivity.
    cbn [read outcome final events app].
    rewrite (bind_inl _ _ e KeyError) by (rewrite Hrun; reflexivity).
    rewrite Hrun. reflexivity.
  - unfold ssh_cmd. rewrite (bind_inr _ _ e (Local l)) by reflexivity.
    cbn [of_option ret connection_run outcome final events app].
    rewrite (bind_inl _ _ e KeyError) by (rewrite Hrun; reflexivity).
    rewrite Hrun. reflexivity.
Qed.

End LocalFacts.

(** ** Teardown *)

Section Teardown.
Context {P : Platform}.

(** X3.  The finaliser polls the control master once and sends it [SIGTERM]
    exactly when the poll finds it running; a control master that has exited
    is not signalled and the finaliser returns normally; with no handle it
    does nothing. *)
Theorem del_signals_running (self : Connection.t) (e : Ext) :
  (forall pid, Connection._ssh_control_master self = Some pid ->
     events (Connection.__del__ self e)
     = EPoll pid :: match fst (proc_poll pid e) with
                    | None => [ESignal pid SIGTERM]
                    | Some _ => []
                    end
     /\ (fst (proc_poll pid e) <> None ->
         outcome (Connection.__del__ self e) = inr tt
         /\ final (Connection.__del__ self e) = snd (proc_poll pid e)))
  /\ (Connection._ssh_control_master self = None ->
      Connection.__del__ self e = mkRes (inr tt) e []).
Proof.
  split.
  - intros pid Hm. unfold Connection.__del__. rewrite Hm.
    rewrite (bind_inr _ _ e (fst (proc_poll pid e))) by (rewrite poll_run; reflexivity).
    rewrite poll_run. cbn [outcome final events app].
    destruct (fst (proc_poll pid e)) as [code|].
    + split; [reflexivity|]. intros _. split; reflexivity.
    + split; [|intro N; contradiction N; reflexivity].
      unfold send_signal, bind, emit, call. cbn [outcome final events app].
      destruct (proc_signal pid SIGTERM (snd (proc_poll pid e))). reflexivity.
  - intro Hm. unfold Connection.__del__. rewrite Hm. reflexivity.
Qed.

End Teardown.

(** ** More on connection establishment *)

Section EstablishFacts.
Context {P : Platform}.

Lemma fallback_users_distinct : NoDup fallback_users.
Proof.
  unfold fallback_users.
  repeat (constructor;
          [cbn [In]; intro Hin;
           repeat (destruct Hin as [Hin|Hin]; [discriminate Hin|]); exact Hin|]).
  constructor.
Qed.

(** X4.  The list of candidates: a list of users given by the caller is used
    as it is, whatever the address or the invoking user; without one, a user
    name in the address is the only candidate; the list is never empty; and
    the fallback list built without either has no user twice. *)
Theorem candidate_users_precedence (users : option (list string))
    (parts : ParseResult) (e : Ext) :
  (forall u l, users = Some (u :: l) ->
     outcome (candidate_users users parts e) = inr (u :: l))
  /\ (forall name, users_given users = false -> username parts = Some name ->
        name <> EmptyString ->
        outcome (candidate_users users parts e) = inr [name])
  /\ (forall cands, outcome (candidate_users users parts e) = inr cands ->
        cands <> [])
  /\ (forall cands, users_given users = false ->
        username_given (username parts) = false ->
        outcome (candidate_users users parts e) = inr cands -> NoDup cands).
Proof.
  split; [|split; [|split]].
  - intros u l ->. reflexivity.
  - intros name Hu Hn Hne. unfold candidate_users. cbv zeta.
    rewrite Hu, Hn. cbn [negb andb username_given].
    destruct name; [contradiction Hne; reflexivity|]. reflexivity.
  - intros cands. unfold candidate_users. cbv zeta.
    match goal with
    | |- context [match ?x with Some _ => _ | None => _ end] =>
        destruct x as [[|u l]|]
    end;
      try (cbn [ret outcome]; intro E; injection E as <-; discriminate);
      unfold bind, read; cbn [outcome final events];
      destruct (negb (str_in (whoami e) fallback_users));
      cbn [ret outcome app]; intro E; injection E as <-; discriminate.
  - intros cands Hu Hn. unfold candidate_users. cbv zeta.
    rewrite Hn, andb_false_r.
    assert (Hfb : outcome ((me <- read whoami ;;
                            if negb (str_in me fallback_users)
                            then me' <- read whoami ;; ret ([me'] ++ fallback_users)
                            else ret fallback_users) e) = inr cands ->
                  NoDup cands).
    { unfold bind, read. cbn [outcome final events].
      destruct (str_in (whoami e) fallback_users) eqn:S; cbn;
        intro E; injection E as <-.
      - apply fallback_users_distinct.
      - constructor; [|apply fallback_users_distinct].
        intro Hin. apply str_in_In in Hin. rewrite Hin in S. discriminate S. }
    destruct users as [[|u l]|]; try discriminate Hu; exact Hfb.
Qed.

Lemma port_or_default_nonzero (p : option Z) : port_or_default p <> 0%Z.
Proof.
  unfold port_or_default, _DEFAULT_SSH_PORT.
  destruct p as [z|]; [|discriminate].
  destruct (z =? 0)%Z eqn:E; [discriminate|]. apply Z.eqb_neq. exact E.
Qed.

Lemma attempt_master (host : option string) (port : Z) (user : string)
    (e : Ext) (c : Connection.t) :
  outcome (attempt host port user e) = inr c ->
  exists pid, Connection._ssh_control_master c = Some pid.
Proof.
  rewrite attempt_unfold. cbv zeta. cbn [outcome]. intro H.
  apply bind_returns in H as (c0 & H0 & H).
  apply bind_returns in H as (r & _ & H).
  cbn in H. injection H as <-. cbn.
  destruct (init_records _ _ _ _ _ _ H0) as (_ & _ & _ & _ & pid & Hp).
  exists pid. exact Hp.
Qed.

Lemma connect_loop_returns (host : option string) (port : Z) (users : list string) :
  forall e c,
    outcome (connect_loop host port users e) = inr c ->
    In (Connection.ssh_user c) users
    /\ Connection.ssh_host c = host /\ Connection.ssh_port c = port
    /\ exists pid, Connection._ssh_control_master c = Some pid.
Proof.
  induction users as [|u rest IH]; intros e c H.
  - discriminate H.
  - cbn [connect_loop] in H. unfold try_except in H.
    remember (attempt host port u e) as a eqn:Ha.
    destruct (outcome a) as [x|c0] eqn:O.
    + destruct (is_ExecutionError x).
      * cbn [outcome] in H. destruct (IH _ _ H) as (Hin & Hrest).
        split; [right; exact Hin | exact Hrest].
      * rewrite O in H. discriminate H.
    + rewrite O in H. injection H as ->. subst a.
      destruct (attempt_records _ _ _ _ _ O) as (Hu & Hh & Hp).
      split; [left; symmetry; exact Hu|]. split; [exact Hh|]. split; [exact Hp|].
      exact (attempt_master _ _ _ _ _ O).
Qed.

(** X5.  Whatever [connect] returns is a connection for one of the
    candidates, to the host and port of the parsed address, the port being 22
    when the address has none or has port 0 and never 0; it holds the handle
    of its control master. *)
Theorem connect_returns_candidate (host : string) (users : option (list string))
    (e : Ext) (c : Connection.t) :
  outcome (connect host users e) = inr c ->
  exists parts cands,
    urlparse (pyformat "ssh://%s" [VStr host]) = inr parts
    /\ outcome (candidate_users users parts e) = inr cands
    /\ In (Connection.ssh_user c) cands
    /\ Connection.ssh_host c = hostname parts
    /\ (forall p, url_port parts = Some p -> p <> 0%Z -> Connection.ssh_port c = p)
    /\ (url_port parts = None \/ url_port parts = Some 0%Z ->
        Connection.ssh_port c = 22%Z)
    /\ Connection.ssh_port c <> 0%Z
    /\ exists pid, Connection._ssh_control_master c = Some pid.
Proof.
  intro H.
  destruct (urlparse (pyformat "ssh://%s" [VStr host])) as [x|parts] eqn:Hp.
  - exfalso. unfold connect in H. rewrite Hp in H.
    unfold bind, log_debug, emit, of_sum in H. cbn [outcome final events] in H.
    discriminate H.
  - destruct (candidate_users_total users parts e) as (cands & Hc).
    pose proof (connect_unfold host users e parts cands Hp Hc) as U.
    cbv zeta in U. rewrite U in H. cbn [outcome] in H.
    destruct (connect_loop_returns _ _ _ _ _ H) as (Hin & Hh & Hport & Hm).
    exists parts, cands. repeat split; try assumption.
    + intros p Hu Hnz. rewrite Hport, Hu. unfold port_or_default.
      rewrite (proj2 (Z.eqb_neq _ _) Hnz). reflexivity.
    + intros [Hu|Hu]; rewrite Hport, Hu; reflexivity.
    + rewrite Hport. apply port_or_default_nonzero.
Qed.

(** X6.  Only [aramid.ExecutionError] moves [connect] on to the next
    candidate: an attempt that raises anything else ends [connect] with that
    exception, and the users after it are not tried. *)
Theorem connect_propagates (host : string) (users : option (list string))
    (e e1 : Ext) (parts : ParseResult) (pre post : list string) (u : string)
    (evs : list event) (x : exn) :
  urlparse (pyformat "ssh://%s" [VStr host]) = inr parts ->
  outcome (candidate_users users parts e) = inr (pre ++ u :: post) ->
  failed_attempts (hostname parts) (port_or_default (url_port parts)) pre e
  = Some (e1, evs) ->
  outcome (attempt (hostname parts) (port_or_default (url_port parts)) u e1)
  = inl x ->
  is_ExecutionError x = false ->
  outcome (connect host users e) = inl x
  /\ spawn_targets (events (connect host users e))
     = map (target_of (hostname parts)) (pre ++ [u]).
Proof.
  intros Hp Hc Hf Ha Hx.
  set (h := hostname parts) in *. set (p := port_or_default (url_port parts)) in *.
  pose proof (connect_unfold host users e parts _ Hp Hc) as Hcon. cbv zeta in Hcon.
  fold h p in Hcon.
  rewrite (connect_loop_app h p pre (u :: post) e e1 evs Hf) in Hcon.
  assert (Hl : connect_loop h p (u :: post) e1 = attempt h p u e1).
  { cbn [connect_loop]. unfold try_except. rewrite Ha, Hx. reflexivity. }
  rewrite Hl in Hcon. cbn [outcome final events] in Hcon.
  rewrite Hcon. cbn [outcome events app]. split; [exact Ha|].
  unfold spawn_targets. cbn [flat_map spawn_target app]. rewrite flat_map_app.
  change (flat_map spawn_target evs) with (spawn_targets evs).
  change (flat_map spawn_target (events (attempt h p u e1)))
    with (spawn_targets (events (attempt h p u e1))).
  rewrite (failed_attempts_spawn h p pre e e1 evs Hf), attempt_spawns, map_app.
  reflexivity.
Qed.

(** X7.  An address that does not parse ends [connect] with the parser's
    exception after its two log lines: no candidate is tried and no process
    is spawned. *)
Theorem connect_malformed (host : string) (users : option (list string))
    (e : Ext) (x : exn) :
  urlparse (pyformat "ssh://%s" [VStr host]) = inl x ->
  outcome (connect host users e) = inl x
  /\ final (connect host users e) = e
  /\ spawn_targets (events (connect host users e)) = []
  /\ commands_run (events (connect host users e)) = [].
Proof.
  intro Hp. unfold connect. rewrite Hp.
  unfold bind, log_debug, emit, of_sum. cbn [outcome final events app].
  repeat split.
Qed.

End EstablishFacts.

(** ** Stripping *)

Lemma lstrip_all (chars a t : string) :
  all_in chars a = true -> lstrip chars (a +++ t) = lstrip chars t.
Proof.
  induction a as [|c r IH]; [reflexivity|].
  cbn [all_in String.append lstrip]. intro H.
  apply andb_true_iff in H as [Hc Hr]. rewrite Hc. exact (IH Hr).
Qed.

Lemma lstrip_decomp (chars s : string) :
  exists a, all_in chars a = true /\ s = a +++ lstrip chars s.
Proof.
  induction s as [|c r (a & Ha & Hs)].
  - exists EmptyString. split; reflexivity.
  - cbn [lstrip]. destruct (mem c chars) eqn:M.
    + exists (String c a). cbn [all_in String.append]. rewrite M, Ha.
      split; [reflexivity|]. rewrite <- Hs. reflexivity.
    + exists EmptyString. split; reflexivity.
Qed.

Lemma rstrip_all (chars b : string) :
  all_in chars b = true -> rstrip chars b = EmptyString.
Proof.
  induction b as [|c r IH]; [reflexivity|].
  cbn [all_in rstrip]. intro H. apply andb_true_iff in H as [Hc Hr].
  rewrite (IH Hr), Hc. reflexivity.
Qed.

Lemma rstrip_decomp (chars s : string) :
  exists b, all_in chars b = true /\ s = rstrip chars s +++ b.
Proof.
  induction s as [|c r (b & Hb & Hs)].
  - exists EmptyString. split; reflexivity.
  - cbn [rstrip]. destruct (rstrip chars r) as [|d t] eqn:R.
    + cbn [String.append] in Hs. subst b.
      destruct (mem c chars) eqn:M.
      * exists (String c r). cbn [all_in String.append]. rewrite M, Hb.
        split; reflexivity.
      * exists r. split; [exact Hb | reflexivity].
    + exists b. split; [exact Hb|]. rewrite Hs at 1. reflexivity.
Qed.

Lemma rstrip_app_all (chars t b : string) :
  all_in chars b = true -> rstrip chars (t +++ b) = rstrip chars t.
Proof.
  intro Hb. induction t as [|c r IH].
  - cbn [String.append]. apply rstrip_all. exact Hb.
  - cbn [String.append rstrip]. rewrite IH. reflexivity.
Qed.

(** [s.strip(chars)] is the one character [c], not among [chars], exactly
    when [s] is [c] between characters of [chars]. *)
Lemma strip_single (chars s : string) (c : ascii) :
  mem c chars = false ->
  strip chars s = chr c
  <-> exists a b, all_in chars a = true /\ all_in chars b = true
                  /\ s = a +++ chr c +++ b.
Proof.
  intro Hc. unfold strip. split.
  - intro H. destruct (lstrip_decomp chars s) as (a & Ha & Hs).
    destruct (rstrip_decomp chars (lstrip chars s)) as (b & Hb & Hl).
    rewrite H in Hl. exists a, b. repeat split; try assumption.
    rewrite <- Hl. exact Hs.
  - intros (a & b & Ha & Hb & ->).
    rewrite (lstrip_all chars a _ Ha). unfold chr. cbn [String.append lstrip].
    rewrite Hc. change (String c b) with (chr c +++ b).
    rewrite (rstrip_app_all chars (chr c) b Hb). unfold chr. cbn [rstrip].
    rewrite Hc. reflexivity.
Qed.

Lemma needs_sudo_probe (out : string) :
  negb (strip_ws out =? "0")%string = false
  <-> exists a b, all_in whitespace a = true /\ all_in whitespace b = true
                  /\ out = a +++ "0" +++ b.
Proof.
  rewrite negb_false_iff, String.eqb_eq. unfold strip_ws.
  apply (strip_single whitespace out "0"%char). reflexivity.
Qed.

(** ** The constructors *)

Section Constructors.
Context {P : Platform}.

Lemma Popen_run (args : list string) (e : Ext) :
  Popen args e = mkRes (fst (popen args e)) (snd (popen args e)) [EPopen args].
Proof.
  unfold Popen, bind, emit, call. cbn [outcome final events].
  destruct (popen args e). reflexivity.
Qed.

(** X8.  A constructed remote connection has run one command, the probe
    [echo $UID], through its own [run] after spawning the control master, and
    its [needs_sudo] is false exactly when the output of the probe is [0]
    between white space. *)
Theorem init_needs_sudo (host : option string) (user : string)
    (kw : option (list (string * string))) (port : Z) (e : Ext) (c : Connection.t) :
  outcome (Connection.__init__ host user kw port e) = inr c ->
  commands_run (events (Connection.__init__ host user kw port e)) = ["echo $UID"]
  /\ exists pid r out,
       fst (popen (Connection.control_master_args host user port
                     (join (cf_remote_dir e) "%C")) e) = inr pid
       /\ Connection._ssh_control_master c = Some pid
       /\ outcome (Connection.run c "echo $UID" true
                     (snd (popen (Connection.control_master_args host user port
                                    (join (cf_remote_dir e) "%C")) e))) = inr r
       /\ stdout r = Some out
       /\ (Connection.needs_sudo c = false
           <-> exists a b, all_in whitespace a = true
                           /\ all_in whitespace b = true
                           /\ out = a +++ "0" +++ b).
Proof.
  intro H. unfold Connection.__init__ in *. cbv zeta in *.
  set (path := join (cf_remote_dir e) "%C") in *.
  set (args := Connection.control_master_args host user port path) in *.
  rewrite (bind_inr _ _ e tt) in * by reflexivity.
  cbn [log_debug emit outcome final events app] in *.
  rewrite (bind_inr _ _ e (cf_remote_dir e)) in * by reflexivity.
  cbn [read outcome final events app] in *. fold path args in H |- *.
  rewrite (bind_inr _ _ e tt) in * by reflexivity.
  cbn [log_debug emit outcome final events app] in *.
  apply bind_returns in H as (pid & Hpid & H).
  rewrite Popen_run in Hpid, H. cbn [outcome final] in Hpid, H.
  rewrite (bind_inr _ _ e pid) by (rewrite Popen_run; exact Hpid).
  rewrite Popen_run. cbn [outcome final events app].
  set (e1 := snd (popen args e)) in *.
  set (self := {| Connection.ssh_host := host; Connection.ssh_port := port;
                  Connection.ssh_user := user; Connection._connect_kwargs := kw;
                  Connection._control_path := path;
                  Connection._ssh_control_master := Some pid;
                  Connection.needs_sudo := false |}) in *.
  apply bind_returns in H as (r & Hr & H).
  apply bind_returns in H as (out & Hout & H).
  apply of_option_returns in Hout.
  cbn in H. injection H as <-.
  split.
  - unfold commands_run. cbn [flat_map command_of app].
    rewrite bind_observed, Hr.
    change (flat_map command_of (events (Connection.run self "echo $UID" true e1)))
      with (commands_run (events (connection_run (Remote self) "echo $UID" true e1))).
    rewrite (connection_run_commands (Remote self) _ _ _ r Hr).
    rewrite Hout. reflexivity.
  - exists pid, r, out. split; [exact Hpid|]. split; [reflexivity|].
    split; [exact Hr|]. split; [exact Hout|].
    cbn [Connection.needs_sudo]. apply needs_sudo_probe.
Qed.

(** X9.  A constructed local connection carries the name of the invoking
    user, and its [needs_sudo] is false exactly when the local shell answers
    the probe [echo $UID] with [0] between white space. *)
Theorem local_init_needs_sudo (e : Ext) (l : LocalConnection.t) :
  outcome (LocalConnection.__init__ e) = inr l ->
  LocalConnection.ssh_user l = pw_name e
  /\ commands_run (events (LocalConnection.__init__ e)) = ["echo $UID"]
  /\ exists r out,
       outcome (LocalConnection.run "echo $UID" true e) = inr r
       /\ stdout r = Some out
       /\ (LocalConnection.needs_sudo l = false
           <-> exists a b, all_in whitespace a = true
                           /\ all_in whitespace b = true
                           /\ out = a +++ "0" +++ b).
Proof.
  intro H. unfold LocalConnection.__init__ in *.
  rewrite (bind_inr _ _ e (pw_name e)) in * by reflexivity.
  cbn [read outcome final events app] in *.
  apply bind_returns in H as (r & Hr & H).
  apply bind_returns in H as (out & Hout & H).
  apply of_option_returns in Hout.
  cbn in H. injection H as <-.
  split; [reflexivity|]. split.
  - unfold commands_run. rewrite bind_observed, Hr.
    change (flat_map command_of (events (LocalConnection.run "echo $UID" true e)))
      with (commands_run (events (connection_run
                                    (Local {| LocalConnection.ssh_user := pw_name e;
                                              LocalConnection.needs_sudo := false |})
                                    "echo $UID" true e))).
    rewrite (connection_run_commands
               (Local {| LocalConnection.ssh_user := pw_name e;
                         LocalConnection.needs_sudo := false |})
               "echo $UID" true e r Hr).
    rewrite Hout. reflexivity.
  - exists r, out. split; [exact Hr|]. split; [exact Hout|].
    cbn [LocalConnection.needs_sudo]. apply needs_sudo_probe.
Qed.

End Constructors.

(** ** More on the dispatch functions *)

Section DispatchFacts.
Context {P : Platform}.

Lemma issued_command (c : connection) (cmd : string) :
  (if connection_needs_sudo c
   then connection_run c
          (pyformat sudo_format [VStr (replace (chr DQ) (String BS (chr DQ)) cmd)]) true
   else connection_run c cmd true)
  = connection_run c (if connection_needs_sudo c then Spec.sudo_wrap cmd else cmd) true.
Proof. rewrite sudo_command. destruct (connection_needs_sudo c); reflexivity. Qed.

(** X10.  When the command comes back with a return code that is not 0,
    [ssh_cmd] with [errors] set prints the captured stdout and stderr (an
    empty line for a stream that is [None]) and logs, as an error, a message
    with the command and the return code; without [errors] it prints nothing
    and logs the same three texts at debug level. *)
Theorem ssh_cmd_reports (c : connection) (cmd : string) (e : Ext)
    (r : ExecutionResult) :
  outcome (connection_run c cmd true e) = inr r ->
  retcode r <> 0%Z ->
  let msg := "Non-sudo command unexpectedly exited: '" +++ cmd +++ "' ["
             +++ str_of_Z (retcode r) +++ "]" in
  events (ssh_cmd (Some c) cmd true e)
  = events (connection_run c cmd true e)
    ++ [EPrint (or_empty (stdout r)); EPrint (or_empty (stderr r));
        ELog ERROR (Text msg)]
  /\ events (ssh_cmd (Some c) cmd false e)
     = events (connection_run c cmd true e)
       ++ [ELog DEBUG (Text (or_empty (stdout r)));
           ELog DEBUG (Text (or_empty (stderr r)));
           ELog DEBUG (Text msg)].
Proof.
  intros Hrun Hnz msg. apply Z.eqb_neq in Hnz. unfold ssh_cmd.
  rewrite !(bind_inr _ _ e c) by reflexivity.
  cbn [of_option ret outcome final events app].
  rewrite !(bind_inr _ _ e r) by exact Hrun. cbn [outcome final events].
  rewrite Hnz. split; reflexivity.
Qed.

(** X11.  The report of [ssh_sudo] names the command as the caller gave it,
    not the wrapped command that was run. *)
Theorem ssh_sudo_reports (c : connection) (cmd : string) (e : Ext)
    (r : ExecutionResult) :
  let issued := if connection_needs_sudo c then Spec.sudo_wrap cmd else cmd in
  outcome (connection_run c issued true e) = inr r ->
  retcode r <> 0%Z ->
  let msg := "Sudo command unexpectedly exited: '" +++ cmd +++ "' ["
             +++ str_of_Z (retcode r) +++ "]" in
  events (ssh_sudo (Some c) cmd true e)
  = events (connection_run c issued true e)
    ++ [EPrint (or_empty (stdout r)); EPrint (or_empty (stderr r));
        ELog ERROR (Text msg)]
  /\ events (ssh_sudo (Some c) cmd false e)
     = events (connection_run c issued true e)
       ++ [ELog DEBUG (Text (or_empty (stdout r)));
           ELog DEBUG (Text (or_empty (stderr r)));
           ELog DEBUG (Text msg)].
Proof.
  intros issued Hrun Hnz msg. apply Z.eqb_neq in Hnz. unfold ssh_sudo.
  rewrite !(bind_inr _ _ e c) by reflexivity.
  cbn [of_option ret outcome final events app].
  rewrite issued_command. fold issued.
  rewrite !(bind_inr _ _ e r) by exact Hrun. cbn [outcome final events].
  rewrite Hnz. split; reflexivity.
Qed.

(** X12.  Errors of the dispatch functions.  Without a connection both raise
    [AssertionError] and run nothing.  An exception of the connection's [run]
    comes out of [ssh_cmd] unchanged, with no report added.  A result with
    return code 0 and no captured stdout makes both raise [AttributeError]:
    only the failure branch tests for [None]. *)
Theorem dispatch_errors (cmd : string) (errors : bool) (e : Ext) :
  ssh_cmd None cmd errors e = mkRes (inl AssertionError) e []
  /\ ssh_sudo None cmd errors e = mkRes (inl AssertionError) e []
  /\ (forall c x, outcome (connection_run c cmd true e) = inl x ->
        outcome (ssh_cmd (Some c) cmd errors e) = inl x
        /\ events (ssh_cmd (Some c) cmd errors e)
           = events (connection_run c cmd true e))
  /\ (forall c r, outcome (connection_run c cmd true e) = inr r ->
        retcode r = 0%Z -> stdout r = None ->
        outcome (ssh_cmd (Some c) cmd errors e) = inl AttributeError)
  /\ (forall c r,
        outcome (connection_run c
                   (if connection_needs_sudo c then Spec.sudo_wrap cmd else cmd)
                   true e) = inr r ->
        retcode r = 0%Z -> stdout r = None ->
        outcome (ssh_sudo (Some c) cmd errors e) = inl AttributeError).
Proof.
  split; [reflexivity|]. split; [reflexivity|]. split; [|split].
  - intros c x Hx. unfold ssh_cmd.
    rewrite (bind_inr _ _ e c) by reflexivity.
    cbn [of_option ret outcome final events app].
    rewrite (bind_inl _ _ e x) by exact Hx. split; reflexivity.
  - intros c r Hr Hz Hs. unfold ssh_cmd.
    rewrite (bind_inr _ _ e c) by reflexivity.
    cbn [of_option ret outcome final events app].
    rewrite (bind_inr _ _ e r) by exact Hr. cbn [outcome].
    rewrite Hz, Hs. reflexivity.
  - intros c r Hr Hz Hs. unfold ssh_sudo.
    rewrite (bind_inr _ _ e c) by reflexivity.
    cbn [of_option ret outcome final events app].
    rewrite issued_command.
    rewrite (bind_inr _ _ e r) by exact Hr. cbn [outcome].
    rewrite Hz, Hs. reflexivity.
Qed.

End DispatchFacts.

(** ** What is printed *)

Section Printing.
Context {P : Platform}.










End Printing.

(** ** Transfers, wrapping and the control master's command line *)

Section TransferFacts.
Context {P : Platform}.

Lemma put_events (self : Connection.t) (src : string) (hide : bool) (e : Ext) :
  events (Connection.put self src hide e)
  = [EPut [{| host_name := Connection.ssh_host self;
              user := Connection.ssh_user self;
              port := Connection.ssh_port self;
              extra_ssh_args := None |}]
          src (basename src) (negb hide)].
Proof.
  unfold Connection.put, aramid_put, bind, emit, call, of_option, ret, raise.
  cbn [outcome final events app].
  destruct (engine_put _ src (basename src) (negb hide) e) as [[x|res] e1];
    cbn [outcome final events app]; [reflexivity|].
  destruct (dict_get res _) as [l|]; cbn [outcome final events app]; [|reflexivity].
  destruct (nth_error l 0); reflexivity.
Qed.

Lemma run_transfers_nothing (c : connection) (cmd : string) (hide : bool) :
  silent transfer_of (connection_run c cmd hide).
Proof.
  destruct c as [l|self]; cbn [connection_run].
  - unfold LocalConnection.run. unfold_library. cbv zeta. silence.
  - unfold Connection.run. unfold_library. cbv zeta. silence.
Qed.

Lemma ssh_cmd_transfers_nothing (c : option connection) (cmd : string) (errors : bool) :
  silent transfer_of (ssh_cmd c cmd errors).
Proof.
  unfold ssh_cmd.
  apply silent_bind; [silence|]. intro c'.
  apply silent_bind; [apply run_transfers_nothing|]. intro r.
  unfold report_failure, log_debug, log_error, print. cbv zeta. silence.
Qed.

(** X14.  On a remote connection [scp] hands the engine one transfer, of the
    file to its base name, whether or not a rename follows.  An exception of
    the transfer comes out of [scp] unchanged and no command is run after
    it. *)
Theorem scp_transfers_once (file remote : string) (rename : option string)
    (hide : bool) (e : Ext) :
  (forall self,
      flat_map transfer_of (events (scp_on file remote (Remote self) rename hide e))
      = [(file, basename file, negb hide)])
  /\ (forall c x, outcome (connection_put c file hide e) = inl x ->
        outcome (scp_on file remote c rename hide e) = inl x
        /\ commands_run (events (scp_on file remote c rename hide e)) = []).
Proof.
  split.
  - intro self. unfold scp_on. rewrite bind_note. cbn [events].
    rewrite flat_map_app.
    assert (Hn : forall s, flat_map transfer_of (if negb hide then [EPrint s] else []) = [])
      by (intro s; destruct (negb hide); reflexivity).
    rewrite Hn. cbn [app]. rewrite bind_observed.
    assert (Hput : flat_map transfer_of
                     (events (connection_put (Remote self) file hide e))
                   = [(file, basename file, negb hide)]).
    { cbn [connection_put]. rewrite bind_observed, put_events.
      cbn [flat_map transfer_of app].
      destruct (outcome (Connection.put self file hide e)); reflexivity. }
    rewrite Hput.
    assert (Hrest : silent transfer_of
              (match rename_given rename with
               | Some r =>
                   if (basename file =? r)%string then ret 0%Z
                   else (if negb hide
                         then print (pyformat "Renaming '%s' -> '%s' on '%s'"
                                       [VStr (basename file); VStr r; VStr remote])
                         else ret tt) ;;
                        ssh_cmd (Some (Remote self))
                          (pyformat "mv %s %s" [VStr (basename file); VStr r]) false ;;
                        ret 0%Z
               | None => ret 0%Z
               end)).
    { destruct (rename_given rename) as [r|]; [|silence].
      destruct (basename file =? r)%string; [silence|].
      apply silent_bind; [unfold print; silence|]. intros _.
      apply silent_bind; [apply ssh_cmd_transfers_nothing | silence]. }
    destruct (outcome (connection_put (Remote self) file hide e)) as [x|[]];
      [reflexivity|].
    cbv zeta in Hrest. rewrite Hrest. reflexivity.
  - intros c x Hx. unfold scp_on. rewrite bind_note. cbn [outcome events].
    rewrite (bind_inl _ _ e x Hx). cbn [outcome events].
    split; [reflexivity|].
    unfold commands_run. rewrite flat_map_app.
    fold (commands_run (events (connection_put c file hide e))).
    assert (Hn : forall s, flat_map command_of (if negb hide then [EPrint s] else []) = [])
      by (intro s; destruct (negb hide); reflexivity).
    rewrite Hn. apply connection_put_commands.
Qed.


Lemma run_spawns_no_args (self : Connection.t) (cmd : string) (hide : bool) :
  silent popen_args (Connection.run self cmd hide).
Proof. unfold Connection.run. unfold_library. cbv zeta. silence. Qed.

Lemma format_port (port : Z) : pyformat "-p %s" [VInt port] = "-p " +++ str_of_Z port.
Proof. cbn. rewrite append_empty_r. reflexivity. Qed.

(** X16.  The constructor spawns one process, [ssh -M -N] on the port of the
    connection with the control path that the connection then passes on every
    [run], followed by the default arguments and the target [user@host]. *)
Theorem init_control_master (host : option string) (user : string)
    (kw : option (list (string * string))) (port : Z) (e : Ext) (c : Connection.t) :
  outcome (Connection.__init__ host user kw port e) = inr c ->
  Connection._control_path c = join (cf_remote_dir e) "%C"
  /\ flat_map popen_args (events (Connection.__init__ host user kw port e))
     = [["ssh"; "-M"; "-N"; "-p " +++ str_of_Z port; Connection.control_path_arg c]
        ++ DEFAULT_SSH_ARGS ++ [target_of host user]].
Proof.
  intro H. unfold Connection.__init__ in *. cbv zeta in *.
  set (path := join (cf_remote_dir e) "%C") in *.
  rewrite (bind_inr _ _ e tt) in * by reflexivity.
  cbn [log_debug emit outcome final events app] in *.
  rewrite (bind_inr _ _ e (cf_remote_dir e)) in * by reflexivity.
  cbn [read outcome final events app] in *. fold path in H |- *.
  rewrite (bind_inr _ _ e tt) in * by reflexivity.
  cbn [log_debug emit outcome final events app] in *.
  apply bind_returns in H as (pid & Hpid & H).
  rewrite (bind_inr _ _ e pid Hpid). cbn [events].
  rewrite Popen_run in *. cbn [outcome final events] in *.
  apply bind_returns in H as (r & Hr & H).
  apply bind_returns in H as (out & Hout & H).
  cbn in H. injection H as <-.
  split; [reflexivity|].
  cbn [flat_map popen_args app].
  match goal with
  | |- _ :: flat_map popen_args (events (bind ?m ?k ?s)) = _ =>
      assert (S : silent popen_args (bind m k))
  end.
  { apply silent_bind; [apply run_spawns_no_args|]. unfold log_debug. silence. }
  rewrite S. unfold Connection.control_master_args, Connection.control_path_arg.
  cbn [Connection._control_path]. rewrite format_port, format_target. reflexivity.
Qed.

Lemma key_args_of_env (self : Connection.t) (e : Ext) :
  Connection._connect_kwargs self = Some (kwargs_of e) ->
  Connection.key_args self = env_key_args e.
Proof.
  intro H. unfold Connection.key_args, env_key_args, kwargs_of in *. rewrite H.
  destruct (environ "CF_REMOTE_SSH_KEY" e) as [k|]; [|reflexivity].
  destruct (nonempty k); reflexivity.
Qed.

Lemma run_execute_hosts (self : Connection.t) (cmd : string) (hide : bool) (e : Ext) :
  Forall (fun h =>
            extra_ssh_args h = Some (Connection.key_args self)
            \/ extra_ssh_args h
               = Some (Connection.key_args self
                       ++ ["-oControlPath=" +++ Connection._control_path self]))
         (flat_map execute_hosts (events (Connection.run self cmd hide e))).
Proof.
  destruct (Connection._ssh_control_master self) as [pid|] eqn:Hm.
  - rewrite (run_events self cmd hide e pid Hm).
    destruct (fst (proc_poll pid e)); cbn [flat_map execute_hosts app].
    + apply Forall_cons; [left; reflexivity | apply Forall_nil].
    + apply Forall_cons; [|apply Forall_nil].
      right. cbn [extra_ssh_args]. rewrite control_path_arg_text. reflexivity.
  - unfold Connection.run. rewrite Hm. cbn. constructor.
Qed.

Lemma control_path_is_no_key (path : string) (l : list string) :
  ~ In "-i" l -> ~ In "-i" (l ++ ["-oControlPath=" +++ path]).
Proof.
  intros Hl Hin. apply in_app_or in Hin as [Hin|[Hin|[]]]; [exact (Hl Hin)|].
  cbn in Hin. discriminate Hin.
Qed.

(** X17.  Every command of an attempt goes to the engine on a handle whose
    extra arguments are the identity file of the environment, followed by
    the control path of the attempt or by nothing.  The identity file is [-i]
    and the expanded value of [CF_REMOTE_SSH_KEY] when the variable is set and
    not empty; when it is unset or empty no handle carries [-i]. *)
Theorem attempt_uses_environment_key (host : option string) (port : Z)
    (user : string) (e : Ext) :
  Forall (fun h =>
            extra_ssh_args h = Some (env_key_args e)
            \/ extra_ssh_args h
               = Some (env_key_args e
                       ++ ["-oControlPath=" +++ join (cf_remote_dir e) "%C"]))
         (flat_map execute_hosts (events (attempt host port user e)))
  /\ (environ "CF_REMOTE_SSH_KEY" e = None \/
      environ "CF_REMOTE_SSH_KEY" e = Some EmptyString ->
      env_key_args e = []
      /\ Forall (fun h => forall args, extra_ssh_args h = Some args -> ~ In "-i" args)
                (flat_map execute_hosts (events (attempt host port user e))))
  /\ (forall k, environ "CF_REMOTE_SSH_KEY" e = Some k -> k <> EmptyString ->
        env_key_args e = ["-i"; expanduser k e]
        /\ Forall (fun h => exists tail,
                     extra_ssh_args h = Some ("-i" :: expanduser k e :: tail))
                  (flat_map execute_hosts (events (attempt host port user e)))).
Proof.
  assert (Hall :
    Forall (fun h =>
              extra_ssh_args h = Some (env_key_args e)
              \/ extra_ssh_args h
                 = Some (env_key_args e
                         ++ ["-oControlPath=" +++ join (cf_remote_dir e) "%C"]))
           (flat_map execute_hosts (events (attempt host port user e)))).
  { assert (Hrun : forall s cmd hide e0,
              Connection._connect_kwargs s = Some (kwargs_of e) ->
              Connection._control_path s = join (cf_remote_dir e) "%C" ->
              Forall (fun h =>
                        extra_ssh_args h = Some (env_key_args e)
                        \/ extra_ssh_args h
                           = Some (env_key_args e
                                   ++ ["-oControlPath="
                                       +++ join (cf_remote_dir e) "%C"]))
                     (flat_map execute_hosts (events (Connection.run s cmd hide e0)))).
    { intros s cmd hide e0 Hk Hpath.
      rewrite <- (key_args_of_env s e Hk), <- Hpath. apply run_execute_hosts. }
    rewrite attempt_unfold. cbv zeta. cbn [events flat_map execute_hosts app].
    rewrite bind_observed. apply Forall_app. split.
    - unfold Connection.__init__. cbv zeta.
      rewrite bind_observed. cbn [log_debug emit outcome final events flat_map execute_hosts app].
      rewrite bind_observed. cbn [read outcome final events flat_map app].
      rewrite bind_observed. cbn [log_debug emit outcome final events flat_map execute_hosts app].
      rewrite bind_observed, Popen_run. cbn [outcome final events flat_map execute_hosts app].
      destruct (fst (popen _ e)) as [x|pid]; [constructor|].
      rewrite bind_observed. apply Forall_app. split.
      + apply Hrun; reflexivity.
      + match goal with
        | |- Forall _ (match ?o with inl _ => _ | inr _ => _ end) =>
            destruct o as [x|r]; [constructor|]
        end.
        match goal with
        | |- Forall _ (flat_map execute_hosts (events (?m ?s))) =>
            assert (S : silent execute_hosts m)
              by (unfold log_debug; silence);
            rewrite S
        end.
        constructor.
    - destruct (outcome (Connection.__init__ host user (Some (kwargs_of e)) port e))
        as [x|c] eqn:O; [constructor|].
      destruct (init_records _ _ _ _ _ _ O) as (_ & _ & _ & Hkw & _).
      pose proof (init_path _ _ _ _ _ _ O) as Hpath.
      rewrite bind_observed. apply Forall_app. split.
      + apply Hrun; [exact Hkw | exact Hpath].
      + match goal with
        | |- Forall _ (match ?o with inl _ => _ | inr _ => _ end) =>
            destruct o; constructor
        end. }
  split; [exact Hall|]. split.
  - intro Hunset.
    assert (He : env_key_args e = [])
      by (unfold env_key_args; destruct Hunset as [H|H]; rewrite H; reflexivity).
    split; [exact He|]. rewrite He in Hall.
    eapply Forall_impl; [|exact Hall].
    intros h [H|H] args Ha; rewrite H in Ha; injection Ha as <-.
    + intros [].
    + apply (control_path_is_no_key _ []). intros [].
  - intros k H Hne.
    assert (He : env_key_args e = ["-i"; expanduser k e]).
    { unfold env_key_args. rewrite H.
      destruct k; [contradiction Hne; reflexivity | reflexivity]. }
    split; [exact He|]. rewrite He in Hall.
    eapply Forall_impl; [|exact Hall].
    intros h [Hh|Hh]; rewrite Hh; eexists; reflexivity.
Qed.

End TransferFacts.

(** ** The output returned *)

Lemma lstrip_first (chars s : string) (c : ascii) :
  first_char (lstrip chars s) = Some c -> mem c chars = false.
Proof.
  unfold first_char. induction s as [|d r IH]; [discriminate|].
  cbn [lstrip]. destruct (mem d chars) eqn:M; [exact IH|].
  cbn [get]. intro E. injection E as <-. exact M.
Qed.

Lemma rstrip_first (chars t : string) (c : ascii) :
  first_char (rstrip chars t) = Some c -> first_char t = Some c.
Proof.
  unfold first_char. destruct t as [|d r]; [discriminate|].
  cbn [rstrip]. destruct (rstrip chars r).
  - destruct (mem d chars); [discriminate | exact (fun E => E)].
  - exact (fun E => E).
Qed.

Lemma rstrip_last (chars t : string) (c : ascii) :
  last_char (rstrip chars t) = Some c -> mem c chars = false.
Proof.
  unfold last_char. induction t as [|d r IH]; [discriminate|].
  cbn [rstrip]. destruct (rstrip chars r) as [|x y] eqn:R.
  - destruct (mem d chars) eqn:M; [discriminate|].
    cbn. intro E. injection E as <-. exact M.
  - cbn [String.length Nat.sub get] in *. rewrite Nat.sub_0_r in *. exact IH.
Qed.

Lemma strip_ends (chars s : string) :
  (forall c, first_char (strip chars s) = Some c -> mem c chars = false)
  /\ (forall c, last_char (strip chars s) = Some c -> mem c chars = false).
Proof.
  unfold strip. split; intros c H.
  - apply rstrip_first in H. exact (lstrip_first _ _ _ H).
  - exact (rstrip_last _ _ _ H).
Qed.

Section Output.
Context {P : Platform}.

(** X18.  A string returned by [ssh_cmd] or [ssh_sudo] neither starts nor
    ends with a newline. *)
Theorem ssh_output_trimmed (c : option connection) (cmd : string) (errors : bool)
    (e : Ext) (res : string) :
  outcome (ssh_cmd c cmd errors e) = inr (Some res)
  \/ outcome (ssh_sudo c cmd errors e) = inr (Some res) ->
  first_char res <> Some LF /\ last_char res <> Some LF.
Proof.
  assert (Hlf : forall s, first_char (strip (chr LF) s) <> Some LF
                          /\ last_char (strip (chr LF) s) <> Some LF).
  { intro s. destruct (strip_ends (chr LF) s) as [Hf Hl].
    split; intro E; [apply Hf in E | apply Hl in E];
      rewrite mem_newline, Ascii.eqb_refl in E; discriminate E. }
  intros [H|H].
  - unfold ssh_cmd in H.
    apply bind_returns in H as (c' & _ & H).
    apply bind_returns in H as (r & _ & H).
    destruct (retcode r =? 0)%Z.
    + apply bind_returns in H as (out & _ & H).
      apply bind_returns in H as (? & _ & H).
      cbn in H. injection H as <-. apply Hlf.
    + rewrite (proj1 (report_failure_outcome _ _ _ _ _)) in H. discriminate H.
  - unfold ssh_sudo in H.
    apply bind_returns in H as (c' & _ & H).
    apply bind_returns in H as (r & _ & H).
    destruct (retcode r =? 0)%Z.
    + apply bind_returns in H as (out & _ & H).
      apply bind_returns in H as (? & _ & H).
      cbn in H. injection H as <-. apply Hlf.
    + rewrite (proj1 (report_failure_outcome _ _ _ _ _)) in H. discriminate H.
Qed.

End Output.

(** * Runs of the further properties *)

Lemma local_put_copies_witness :
  environ "HOME" Scenario.w_motd = Some "/home/alice"
  /\ LocalConnection.put "/home/alice/a.txt" false Scenario.w_motd
     = mkRes (inr tt) Scenario.w_motd []
  /\ events (LocalConnection.put "a.txt" false Scenario.w_motd)
     = [EPrint "Local copy: '/work/a.txt' -> '/home/alice/a.txt'";
        ECopy "/work/a.txt" "/home/alice/a.txt"].
Proof.
  destruct (local_put_copies (P := Scenario.platform) "/home/alice/a.txt" false
              Scenario.w_motd "/home/alice" eq_refl) as (_ & Hsame & _).
  destruct (local_put_copies (P := Scenario.platform) "a.txt" false
              Scenario.w_motd "/home/alice" eq_refl) as (_ & _ & Hcopy).
  split; [reflexivity|]. split.
  - apply Hsame. reflexivity.
  - rewrite Hcopy; [reflexivity|]. vm_compute. discriminate.
Defined.

Lemma local_home_missing_witness :
  environ (Platform := Edge.homeless) "HOME" Scenario.w_motd = None
  /\ LocalConnection.run (P := Edge.homeless) "cat motd" true Scenario.w_motd
     = mkRes (P := Edge.homeless) (inl KeyError) Scenario.w_motd []
  /\ LocalConnection.put (P := Edge.homeless) "a.txt" false Scenario.w_motd
     = mkRes (P := Edge.homeless) (inl KeyError) Scenario.w_motd [].
Proof.
  destruct (local_home_missing (P := Edge.homeless) "cat motd" "a.txt" true false
              Scenario.w_motd
              {| LocalConnection.ssh_user := "alice";
                 LocalConnection.needs_sudo := true |} eq_refl)
    as (Hrun & _ & _ & _).
  destruct (local_home_missing (P := Edge.homeless) "cat motd" "a.txt" false false
              Scenario.w_motd
              {| LocalConnection.ssh_user := "alice";
                 LocalConnection.needs_sudo := true |} eq_refl)
    as (_ & Hput & _ & _).
  split; [reflexivity|]. split; [exact Hrun | exact Hput].
Defined.

(** Teardown with the control master running, and a second teardown after
    it. *)
Lemma del_signals_running_witness :
  Connection._ssh_control_master (Scenario.conn true) = Some 7
  /\ events (Connection.__del__ (Scenario.conn true) Scenario.w_motd)
     = [EPoll 7; ESignal 7 SIGTERM]
  /\ events (Connection.__del__ (Scenario.conn true)
               (final (Connection.__del__ (Scenario.conn true) Scenario.w_motd)))
     = [EPoll 7]
  /\ outcome (Connection.__del__ (Scenario.conn true) Scenario.w0) = inr tt.
Proof.
  split; [reflexivity|].
  destruct (del_signals_running (P := Scenario.platform) (Scenario.conn true)
              Scenario.w_motd) as [H1 _].
  destruct (H1 7 eq_refl) as [Hev _].
  destruct (del_signals_running (P := Scenario.platform) (Scenario.conn true)
              (final (Connection.__del__ (P := Scenario.platform)
                        (Scenario.conn true) Scenario.w_motd))) as [H2 _].
  destruct (H2 7 eq_refl) as [Hev2 _].
  destruct (del_signals_running (P := Scenario.platform) (Scenario.conn true)
              Scenario.w0) as [H3 _].
  destruct (H3 7 eq_refl) as [_ Hdead].
  split; [exact Hev|]. split; [exact Hev2|].
  apply Hdead. discriminate.
Defined.

Lemma candidate_users_precedence_witness :
  outcome (candidate_users (Some ["deploy"; "root"])
             {| hostname := Some "web1"; username := Some "bob"; url_port := None |}
             Scenario.w0) = inr ["deploy"; "root"]
  /\ outcome (candidate_users (Some [])
                {| hostname := Some "web1"; username := Some "bob"; url_port := None |}
                Scenario.w0) = inr ["bob"]
  /\ NoDup ["alice"; "Administrator"; "admin"; "ubuntu"; "ec2-user"; "centos";
            "vagrant"; "root"].
Proof.
  split; [|split].
  - exact (proj1 (candidate_users_precedence (P := Scenario.platform)
                    (Some ["deploy"; "root"])
                    {| hostname := Some "web1"; username := Some "bob";
                       url_port := None |} Scenario.w0)
             "deploy" ["root"] eq_refl).
  - apply (proj1 (proj2 (candidate_users_precedence (P := Scenario.platform)
                           (Some [])
                           {| hostname := Some "web1"; username := Some "bob";
                              url_port := None |} Scenario.w0))
             "bob" eq_refl eq_refl).
    discriminate.
  - exact (proj2 (proj2 (proj2 (candidate_users_precedence (P := Scenario.platform)
                                  None Scenario.web1 Scenario.w0)))
             _ eq_refl eq_refl eq_refl).
Defined.

Lemma connect_returns_candidate_witness :
  exists c,
    outcome (connect "bob@web1:0" (Some ["ubuntu"]) Scenario.w0) = inr c
    /\ Connection.ssh_user c = "ubuntu"
    /\ Connection.ssh_host c = Some "web1"
    /\ Connection.ssh_port c = 22%Z.
Proof.
  let o := eval vm_compute in
        (outcome (connect (P := Scenario.platform) "bob@web1:0" (Some ["ubuntu"])
                    Scenario.w0)) in
  match o with
  | inr ?c =>
      exists c;
      destruct (connect_returns_candidate (P := Scenario.platform) "bob@web1:0"
                  (Some ["ubuntu"]) Scenario.w0 c)
        as (parts & cands & Hp & Hc & Hin & Hh & _ & H22 & _);
      [vm_compute; reflexivity|]
  end.
  vm_compute in Hp. injection Hp as <-.
  vm_compute in Hc. injection Hc as <-.
  split; [vm_compute; reflexivity|]. split.
  - destruct Hin as [Hin|[]]. symmetry. exact Hin.
  - split; [exact Hh|]. apply H22. right. reflexivity.
Defined.

(** The host lets [ubuntu] in but the probe comes back without output: the
    attempt ends in [AttributeError], which [connect] does not catch. *)
Lemma connect_propagates_witness :
  outcome (connect "web1" None Edge.w_mute) = inl AttributeError
  /\ spawn_targets (events (connect "web1" None Edge.w_mute))
     = ["Administrator@web1"; "admin@web1"; "ubuntu@web1"].
Proof.
  let r := eval vm_compute in
        (failed_attempts (P := Scenario.platform) (Some "web1") 22
           ["Administrator"; "admin"] Edge.w_mute) in
  match r with
  | Some (?e1, ?evs) =>
      apply (connect_propagates (P := Scenario.platform) "web1" None Edge.w_mute
               e1 Scenario.web1 ["Administrator"; "admin"]
               ["ec2-user"; "centos"; "vagrant"; "root"] "ubuntu" evs
               AttributeError);
      vm_compute; reflexivity
  end.
Defined.

Lemma connect_malformed_witness :
  urlparse (pyformat "ssh://%s" [VStr "web1:x"]) = inl ValueError
  /\ outcome (connect "web1:x" None Scenario.w0) = inl ValueError
  /\ spawn_targets (events (connect "web1:x" None Scenario.w0)) = [].
Proof.
  split; [reflexivity|].
  destruct (connect_malformed (P := Scenario.platform) "web1:x" None Scenario.w0
              ValueError eq_refl) as (Ho & _ & Hs & _).
  split; [exact Ho | exact Hs].
Defined.

(** A connection made as [root]: the probe answers 0, a no-break space and a
    newline. *)
Lemma init_needs_sudo_witness :
  exists c,
    outcome (Connection.__init__ (Some "web1") "root" None 22 Edge.w_uid0) = inr c
    /\ commands_run (events (Connection.__init__ (Some "web1") "root" None 22
                               Edge.w_uid0)) = ["echo $UID"]
    /\ Connection.needs_sudo c = false.
Proof.
  let o := eval vm_compute in
        (outcome (Connection.__init__ (P := Scenario.platform) (Some "web1") "root"
                    None 22 Edge.w_uid0)) in
  match o with
  | inr ?c =>
      exists c;
      destruct (init_needs_sudo (P := Scenario.platform) (Some "web1") "root" None 22
                  Edge.w_uid0 c)
        as (Hcmd & pid & r & out & _ & _ & Hr & Hout & Hiff);
      [vm_compute; reflexivity|]
  end.
  split; [vm_compute; reflexivity|]. split; [exact Hcmd|].
  apply Hiff. vm_compute in Hr. injection Hr as <-.
  vm_compute in Hout. injection Hout as <-.
  exists EmptyString, (String "160" (chr LF)). repeat split.
Defined.

Lemma local_init_needs_sudo_witness :
  exists l,
    outcome (LocalConnection.__init__ Edge.w_uid0) = inr l
    /\ LocalConnection.ssh_user l = "root"
    /\ LocalConnection.needs_sudo l = false.
Proof.
  let o := eval vm_compute in
        (outcome (LocalConnection.__init__ (P := Scenario.platform) Edge.w_uid0)) in
  match o with
  | inr ?l =>
      exists l;
      destruct (local_init_needs_sudo (P := Scenario.platform) Edge.w_uid0 l)
        as (Hu & _ & r & out & Hr & Hout & Hiff);
      [vm_compute; reflexivity|]
  end.
  split; [vm_compute; reflexivity|]. split; [exact Hu|].
  apply Hiff. vm_compute in Hr. injection Hr as <-.
  vm_compute in Hout. injection Hout as <-.
  exists EmptyString, (String "160" (chr LF)). repeat split.
Defined.

Lemma ssh_cmd_reports_witness :
  events (ssh_cmd (Some (Remote (Scenario.conn true))) "test -f x" true Scenario.w_motd)
  = events (connection_run (Remote (Scenario.conn true)) "test -f x" true
              Scenario.w_motd)
    ++ [EPrint EmptyString; EPrint EmptyString;
        ELog ERROR (Text "Non-sudo command unexpectedly exited: 'test -f x' [1]")].
Proof.
  refine (proj1 (ssh_cmd_reports (P := Scenario.platform)
                   (Remote (Scenario.conn true)) "test -f x" Scenario.w_motd
                   Scenario.missing eq_refl _)).
  discriminate.
Defined.

(** The wrapped command is refused; the report names [cat motd]. *)
Lemma ssh_sudo_reports_witness :
  commands_run (events (connection_run (Remote (Scenario.conn true))
                          (Spec.sudo_wrap "cat motd") true Edge.w_denied))
  = ["sudo bash -c " +++ chr DQ +++ "cat motd" +++ chr DQ]
  /\ events (ssh_sudo (Some (Remote (Scenario.conn true))) "cat motd" true
               Edge.w_denied)
     = events (connection_run (Remote (Scenario.conn true))
                 (Spec.sudo_wrap "cat motd") true Edge.w_denied)
       ++ [EPrint EmptyString; EPrint "sudo: a password is required";
           ELog ERROR (Text "Sudo command unexpectedly exited: 'cat motd' [1]")].
Proof.
  split; [reflexivity|].
  refine (proj1 (ssh_sudo_reports (P := Scenario.platform)
                   (Remote (Scenario.conn true)) "cat motd" Edge.w_denied
                   Edge.denied eq_refl _)).
  discriminate.
Defined.

Lemma dispatch_errors_witness :
  outcome (ssh_cmd (Some (Remote Scenario.stranger)) "cat motd" false Scenario.w_motd)
  = inl ExecutionError
  /\ outcome (ssh_cmd (Some (Remote (Scenario.conn true))) "echo $UID" false
                Edge.w_mute) = inl AttributeError
  /\ outcome (ssh_sudo (Some (Remote (Scenario.conn false))) "echo $UID" true
                Edge.w_mute) = inl AttributeError.
Proof.
  destruct (dispatch_errors (P := Scenario.platform) "cat motd" false Scenario.w_motd)
    as (_ & _ & Hraise & _).
  destruct (dispatch_errors (P := Scenario.platform) "echo $UID" false Edge.w_mute)
    as (_ & _ & _ & Hcmd & _).
  destruct (dispatch_errors (P := Scenario.platform) "echo $UID" true Edge.w_mute)
    as (_ & _ & _ & _ & Hsudo).
  split; [|split].
  - exact (proj1 (Hraise (Remote Scenario.stranger) ExecutionError eq_refl)).
  - exact (Hcmd (Remote (Scenario.conn true)) Edge.mute eq_refl eq_refl eq_refl).
  - exact (Hsudo (Remote (Scenario.conn false)) Edge.mute eq_refl eq_refl eq_refl).
Defined.

Lemma scp_transfers_once_witness :
  flat_map transfer_of
    (events (scp_on "/tmp/a.txt" "web1" (Remote (Scenario.conn true)) (Some "b.txt")
               false Scenario.w_motd))
  = [("/tmp/a.txt", "a.txt", true)]
  /\ outcome (scp_on (P := Edge.homeless) "/tmp/a.txt" "localhost"
                (Local {| LocalConnection.ssh_user := "alice";
                          LocalConnection.needs_sudo := true |})
                (Some "b.txt") false Scenario.w_motd) = inl KeyError
  /\ commands_run (events (scp_on (P := Edge.homeless) "/tmp/a.txt" "localhost"
                             (Local {| LocalConnection.ssh_user := "alice";
                                       LocalConnection.needs_sudo := true |})
                             (Some "b.txt") false Scenario.w_motd)) = [].
Proof.
  split.
  - exact (proj1 (scp_transfers_once (P := Scenario.platform) "/tmp/a.txt" "web1"
                    (Some "b.txt") false Scenario.w_motd) (Scenario.conn true)).
  - exact (proj2 (scp_transfers_once (P := Edge.homeless) "/tmp/a.txt" "localhost"
                    (Some "b.txt") false Scenario.w_motd)
             (Local {| LocalConnection.ssh_user := "alice";
                       LocalConnection.needs_sudo := true |})
             KeyError eq_refl).
Defined.


Lemma init_control_master_witness :
  exists c,
    outcome (Connection.__init__ (Some "web1") "root" None 2222 Edge.w_uid0) = inr c
    /\ flat_map popen_args
         (events (Connection.__init__ (Some "web1") "root" None 2222 Edge.w_uid0))
       = [["ssh"; "-M"; "-N"; "-p 2222";
           "-oControlPath=/home/root/.cfengine/cf-remote/%C";
           "-oLogLevel=ERROR"; "-oBatchMode=yes"; "root@web1"]].
Proof.
  let o := eval vm_compute in
        (outcome (Connection.__init__ (P := Scenario.platform) (Some "web1") "root"
                    None 2222 Edge.w_uid0)) in
  match o with
  | inr ?c =>
      exists c;
      destruct (init_control_master (P := Scenario.platform) (Some "web1") "root"
                  None 2222 Edge.w_uid0 c) as (_ & Hargs);
      [vm_compute; reflexivity|]
  end.
  split; [vm_compute; reflexivity|]. rewrite Hargs. vm_compute. reflexivity.
Defined.

Lemma attempt_uses_environment_key_witness :
  environ "CF_REMOTE_SSH_KEY" Scenario.w_root = Some "/keys/id"
  /\ env_key_args Scenario.w_root = ["-i"; "/keys/id"]
  /\ Forall (fun h => exists tail,
               extra_ssh_args h = Some ("-i" :: "/keys/id" :: tail))
            (flat_map execute_hosts
               (events (attempt (Some "web1") 22 "root" Scenario.w_root)))
  /\ environ "CF_REMOTE_SSH_KEY" Scenario.w0 = None
  /\ Forall (fun h => forall args, extra_ssh_args h = Some args -> ~ In "-i" args)
            (flat_map execute_hosts
               (events (attempt (Some "web1") 22 "ubuntu" Scenario.w0)))
  /\ length (flat_map execute_hosts
               (events (attempt (Some "web1") 22 "ubuntu" Scenario.w0))) = 2.
Proof.
  destruct (attempt_uses_environment_key (P := Scenario.platform) (Some "web1") 22
              "root" Scenario.w_root) as (_ & _ & Hset).
  destruct (attempt_uses_environment_key (P := Scenario.platform) (Some "web1") 22
              "ubuntu" Scenario.w0) as (_ & Hunset & _).
  destruct (Hset "/keys/id" eq_refl ltac:(discriminate)) as [Hk Hall].
  destruct (Hunset (or_introl eq_refl)) as [_ Hnone].
  split; [reflexivity|]. split; [exact Hk|]. split; [exact Hall|].
  split; [reflexivity|]. split; [exact Hnone | reflexivity].
Defined.

Lemma ssh_output_trimmed_witness :
  outcome (ssh_cmd (Some (Remote (Scenario.conn true))) "cat motd" false
             Scenario.w_motd) = inr (Some "ok")
  /\ first_char "ok" <> Some LF /\ last_char "ok" <> Some LF.
Proof.
  split; [reflexivity|].
  apply (ssh_output_trimmed (P := Scenario.platform)
           (Some (Remote (Scenario.conn true))) "cat motd" false Scenario.w_motd "ok").
  left. reflexivity.
Defined.
